(** * sys_monitor_gui: sampling, rate derivation, rolling history, scheduling

    A shallow embedding of [sys_monitor_gui.py] (class [SystemMonitorApp]).

    - Python [float] is IEEE 754 binary64, embedded with the executable
      specification of the Standard Library ([spec_float], precision 53,
      [emax] 1024); Python [int] is [Z].
    - Python exceptions are values of [exn]; a call that may raise returns a
      [result]; methods that mutate [self] run in the state-and-exception
      monad [M], where the state written before a [raise] is kept, as in
      Python.
    - [collections.deque] with [maxlen], Tk's [after] timer queue and the
      host readings of [psutil] and [time] are modelled explicitly. *)

From Stdlib Require Import ZArith List String Ascii Bool Lia.
From Stdlib Require Import Floats.SpecFloat DecimalString.
Import ListNotations.

Local Open Scope Z_scope.
Local Open Scope string_scope.

(** ** Exceptions and results *)

(** The five host reads of [_collect_metrics]. *)
Inductive subsystem : Type := Cpu | Memory | Process | Disk | Network.

(** The exceptions the modelled code can raise.  All of them are instances of
    Python's [Exception], which is what [_schedule_update] catches. *)
Inductive exn : Type :=
| ZeroDivisionError                (* float division by zero *)
| OverflowError                    (* int too large to convert to float *)
| HostError (s : subsystem)        (* a psutil read raised *)
| StrftimeError                    (* time.localtime / time.strftime raised *)
| DrawError                        (* the matplotlib canvas raised *)
| PrintError.                      (* print raised: the console refused the write *)

Inductive result (A : Type) : Type :=
| Ok (a : A)
| Raise (e : exn).
Arguments Ok {A} a.
Arguments Raise {A} e.

Definition rbind {A B : Type} (r : result A) (k : A -> result B) : result B :=
  match r with
  | Ok a => k a
  | Raise e => Raise e
  end.

(** ** Python floats *)

Module PyFloat.

Definition prec : Z := 53.
Definition emax : Z := 1024.

Definition float : Type := spec_float.

(** Nearest binary64 to an integer, ties to even ([+inf] past the range). *)
Definition of_Z (z : Z) : float := binary_normalize prec emax z 0 false.

(** [float(n)] for an [int] operand of a float operation: raises
    [OverflowError] when the rounded value leaves the finite range. *)
Definition of_int (n : Z) : result float :=
  match of_Z n with
  | S754_infinity _ => Raise OverflowError
  | f => Ok f
  end.

Definition sub : float -> float -> float := SFsub prec emax.
Definition div : float -> float -> float := SFdiv prec emax.
Definition ltb : float -> float -> bool := SFltb.
Definition leb : float -> float -> bool := SFleb.

(** [x == 0.0] *)
Definition is_zero (x : float) : bool :=
  match x with
  | S754_zero _ => true
  | _ => false
  end.

(** [bool(x)]: a float is falsy exactly when it is zero. *)
Definition truthy (x : float) : bool := negb (is_zero x).

Definition is_finite (x : float) : bool :=
  match x with
  | S754_zero _ | S754_finite _ _ _ => true
  | _ => false
  end.

(** A well-formed binary64 value (canonical mantissa and exponent). *)
Definition valid (x : float) : bool := valid_binary prec emax x.

Definition pow2_52 : positive := 4503599627370496.

Definition zero : float := S754_zero false.
Definition one : float := S754_finite false pow2_52 (-52).

(** [x] carries the sign bit [s] and is not a NaN. *)
Definition signed (s : bool) (x : float) : Prop :=
  match x with
  | S754_nan => False
  | S754_zero s' | S754_infinity s' | S754_finite s' _ _ => s' = s
  end.

(** 1023.5, and the least binary64 number whose quotient by 1024 is at
    least 1023.95 (it is the float of the literal [1048524.8]). *)
Definition f1023_5 : float := S754_finite false 9002801208229888 (-43).
Definition f1048524_8 : float := S754_finite false 9006759450089882 (-33).

(** [x * 2^k] for a finite [x], with no rounding: the mantissa stays and
    the exponent moves. *)
Definition ldexp_exact (x : float) (k : Z) : float :=
  match x with
  | S754_finite s m e => S754_finite s m (e + k)
  | _ => x
  end.

(** [a / b] with [a] an [int] and [b] a [float]: the int is converted
    first, then a zero divisor raises, then the IEEE quotient. *)
Definition int_truediv (a : Z) (b : float) : result float :=
  rbind (of_int a) (fun fa =>
    if is_zero b then Raise ZeroDivisionError else Ok (div fa b)).

(** [a / n] with [a] a [float] and [n] an [int]. *)
Definition truediv_int (a : float) (n : Z) : result float :=
  rbind (of_int n) (fun fn =>
    if is_zero fn then Raise ZeroDivisionError else Ok (div a fn)).

(** [a < n] with [a] a [float] and [n] an [int] that binary64 represents
    exactly (1024 and 1024**2 here), where Python's exact mixed comparison
    coincides with the float comparison. *)
Definition lt_int (a : float) (n : Z) : bool := ltb a (of_Z n).

(** *** Fixed-point formatting, [format(x, ".<d>f")]

    Python prints the decimal with [d] fractional digits that is nearest to
    the exact binary value, ties to even. *)

Definition round_half_even (num den : Z) : Z :=
  let q := num / den in
  let r := num mod den in
  match 2 * r ?= den with
  | Lt => q
  | Eq => if Z.even q then q else q + 1
  | Gt => q + 1
  end.

(** Nearest integer to [m * 2^e * 10^d]. *)
Definition scaled (d : nat) (m : positive) (e : Z) : Z :=
  match e with
  | Zneg p => round_half_even (Zpos m * 10 ^ Z.of_nat d) (2 ^ Zpos p)
  | _ => Zpos m * 2 ^ e * 10 ^ Z.of_nat d
  end.

Definition digit (n : Z) : string :=
  String (ascii_of_nat (48 + Z.to_nat (n mod 10))) EmptyString.

Definition int_digits (n : Z) : string :=
  NilZero.string_of_uint (N.to_uint (Z.to_N n)).

(** The [d] low decimal digits of [n], most significant first. *)
Fixpoint frac_digits (d : nat) (n : Z) : string :=
  match d with
  | O => EmptyString
  | S d' => frac_digits d' (n / 10) ++ digit n
  end.

(** The non-negative integer [n], read as a count of [10^-d] units. *)
Definition render (d : nat) (n : Z) : string :=
  int_digits (n / 10 ^ Z.of_nat d) ++
  match d with
  | O => EmptyString
  | S _ => "." ++ frac_digits d n
  end.

Definition sign (s : bool) : string := if s then "-" else "".

Definition format_fixed (d : nat) (x : float) : string :=
  match x with
  | S754_nan => "nan"
  | S754_infinity s => sign s ++ "inf"
  | S754_zero s => sign s ++ render d 0
  | S754_finite s m e => sign s ++ render d (scaled d m e)
  end.

End PyFloat.

(** ** [_format_bytes] *)

Definition _format_bytes (bps : PyFloat.float) : result string :=
  if PyFloat.lt_int bps 1024 then
    Ok (PyFloat.format_fixed 0 bps ++ " B/s")
  else if PyFloat.lt_int bps (1024 ^ 2) then
    rbind (PyFloat.truediv_int bps 1024) (fun v =>
      Ok (PyFloat.format_fixed 1 v ++ " KB/s"))
  else
    rbind (PyFloat.truediv_int bps (1024 ^ 2)) (fun v =>
      Ok (PyFloat.format_fixed 2 v ++ " MB/s")).


(** ** [collections.deque] with [maxlen] *)

Module Deque.

Record deque (A : Type) : Type := { items : list A; maxlen : nat }.
Arguments items {A} d.
Arguments maxlen {A} d.

(** [d.append(x)]: the element goes to the right end; when the length then
    exceeds [maxlen], one element is dropped from the left. *)
Definition append {A : Type} (d : deque A) (x : A) : deque A :=
  let l := (items d ++ [x])%list in
  {| items := if (maxlen d <? List.length l)%nat then tl l else l;
     maxlen := maxlen d |}.

(** [deque(iterable, maxlen=n)]: an empty deque extended from the iterable. *)
Definition make {A : Type} (l : list A) (n : nat) : deque A :=
  fold_left append l {| items := []; maxlen := n |}.

(** [list(d)] *)
Definition to_list {A : Type} (d : deque A) : list A := items d.

End Deque.

(** ** Host readings *)

Module psutil.

(** The fields of [psutil.disk_io_counters()] the program reads. *)
Record sdiskio : Type := { read_bytes : Z; write_bytes : Z }.

(** The fields of [psutil.net_io_counters()] the program reads. *)
Record snetio : Type := { bytes_sent : Z; bytes_recv : Z }.

End psutil.

(** What the host answers during one tick: the clock, the five psutil reads,
    the local-time formatting and the canvas redraw of the presentation
    layer, and the console write of [print].  [None] stands for a call that
    raises. *)
Record Host : Type := {
  time_time : PyFloat.float;
  cpu_percent : option PyFloat.float;
  virtual_memory_percent : option PyFloat.float;
  pids : option (list Z);
  disk_io_counters : option psutil.sdiskio;
  net_io_counters : option psutil.snetio;
  strftime_localtime : PyFloat.float -> option string;
  draw_idle : option unit;
  console : option unit
}.

(** The outcome of a host call, with the exception a failure raises. *)
Definition outcome {A : Type} (e : exn) (o : option A) : result A :=
  match o with
  | Some v => Ok v
  | None => Raise e
  end.

(** ** Configuration *)

Definition UPDATE_INTERVAL_MS : Z := 1000.
Definition CPU_HISTORY_LEN : nat := 60.

(** ** Application state *)

(** The dict returned by [_collect_metrics]. *)
Record Metrics : Type := {
  cpu : PyFloat.float;
  mem : PyFloat.float;
  proc_count : Z;
  read_bps : PyFloat.float;
  write_bps : PyFloat.float;
  sent_bps : PyFloat.float;
  recv_bps : PyFloat.float;
  timestamp : PyFloat.float
}.

(** The Tk variables and, when matplotlib was imported, the plotted line. *)
Record Widgets : Type := {
  cpu_percent_var : PyFloat.float;
  mem_percent_var : PyFloat.float;
  proc_count_var : Z;
  disk_read_var : string;
  disk_write_var : string;
  net_sent_var : string;
  net_recv_var : string;
  last_update_var : string;
  line : option (list PyFloat.float)
}.

(** The callbacks handed to [root.after]. *)
Inductive callback : Type := Schedule_update.

(** [self], together with Tk's pending timers and the console. *)
Record App : Type := {
  widgets : Widgets;
  cpu_history : Deque.deque PyFloat.float;
  prev_disk : psutil.sdiskio;
  prev_net : psutil.snetio;
  prev_time : PyFloat.float;
  timers : list (Z * callback);
  stdout : list exn
}.

Definition set_widgets (w : Widgets) (a : App) : App :=
  {| widgets := w; cpu_history := cpu_history a; prev_disk := prev_disk a;
     prev_net := prev_net a; prev_time := prev_time a; timers := timers a;
     stdout := stdout a |}.

Definition set_cpu_history (d : Deque.deque PyFloat.float) (a : App) : App :=
  {| widgets := widgets a; cpu_history := d; prev_disk := prev_disk a;
     prev_net := prev_net a; prev_time := prev_time a; timers := timers a;
     stdout := stdout a |}.

Definition set_prev_disk (c : psutil.sdiskio) (a : App) : App :=
  {| widgets := widgets a; cpu_history := cpu_history a; prev_disk := c;
     prev_net := prev_net a; prev_time := prev_time a; timers := timers a;
     stdout := stdout a |}.

Definition set_prev_net (c : psutil.snetio) (a : App) : App :=
  {| widgets := widgets a; cpu_history := cpu_history a; prev_disk := prev_disk a;
     prev_net := c; prev_time := prev_time a; timers := timers a;
     stdout := stdout a |}.

Definition set_prev_time (t : PyFloat.float) (a : App) : App :=
  {| widgets := widgets a; cpu_history := cpu_history a; prev_disk := prev_disk a;
     prev_net := prev_net a; prev_time := t; timers := timers a;
     stdout := stdout a |}.

Definition set_timers (l : list (Z * callback)) (a : App) : App :=
  {| widgets := widgets a; cpu_history := cpu_history a; prev_disk := prev_disk a;
     prev_net := prev_net a; prev_time := prev_time a; timers := l;
     stdout := stdout a |}.

Definition set_stdout (l : list exn) (a : App) : App :=
  {| widgets := widgets a; cpu_history := cpu_history a; prev_disk := prev_disk a;
     prev_net := prev_net a; prev_time := prev_time a; timers := timers a;
     stdout := l |}.

(** ** Methods that mutate [self]: state and exceptions *)

Definition M (A : Type) : Type := App -> result A * App.

Definition ret {A : Type} (a : A) : M A := fun s => (Ok a, s).

Definition bind {A B : Type} (c : M A) (k : A -> M B) : M B :=
  fun s =>
    match c s with
    | (Ok a, s') => k a s'
    | (Raise e, s') => (Raise e, s')
    end.

Definition get : M App := fun s => (Ok s, s).

Definition modify (f : App -> App) : M unit := fun s => (Ok tt, f s).

(** A call whose outcome does not depend on [self]. *)
Definition call {A : Type} (r : result A) : M A := fun s => (r, s).

Notation "x <- c ;; k" := (bind c (fun x => k))
  (at level 61, c at next level, right associativity).
Notation "c ;;; k" := (bind c (fun _ => k))
  (at level 61, right associativity).

(** ** [_collect_metrics] *)

(** [max(0, cur - prev)] *)
Definition byte_delta (cur prev : Z) : Z := Z.max 0 (cur - prev).

(** [now - self.prev_time if self.prev_time else 1.0] *)
Definition elapsed (now : PyFloat.float) (self : App) : PyFloat.float :=
  if PyFloat.truthy (prev_time self)
  then PyFloat.sub now (prev_time self)
  else PyFloat.one.

Definition _collect_metrics (h : Host) : M Metrics :=
  let now := time_time h in
  self <- get ;;
  let dt := elapsed now self in
  modify (set_prev_time now) ;;;
  cpu <- call (outcome (HostError Cpu) (cpu_percent h)) ;;
  mem <- call (outcome (HostError Memory) (virtual_memory_percent h)) ;;
  ps <- call (outcome (HostError Process) (pids h)) ;;
  let proc_count := Z.of_nat (List.length ps) in
  cur_disk <- call (outcome (HostError Disk) (disk_io_counters h)) ;;
  self <- get ;;
  let read_bytes :=
    byte_delta (psutil.read_bytes cur_disk) (psutil.read_bytes (prev_disk self)) in
  let write_bytes :=
    byte_delta (psutil.write_bytes cur_disk) (psutil.write_bytes (prev_disk self)) in
  read_bps <- call (PyFloat.int_truediv read_bytes dt) ;;
  write_bps <- call (PyFloat.int_truediv write_bytes dt) ;;
  modify (set_prev_disk cur_disk) ;;;
  cur_net <- call (outcome (HostError Network) (net_io_counters h)) ;;
  self <- get ;;
  let sent_bytes :=
    byte_delta (psutil.bytes_sent cur_net) (psutil.bytes_sent (prev_net self)) in
  let recv_bytes :=
    byte_delta (psutil.bytes_recv cur_net) (psutil.bytes_recv (prev_net self)) in
  sent_bps <- call (PyFloat.int_truediv sent_bytes dt) ;;
  recv_bps <- call (PyFloat.int_truediv recv_bytes dt) ;;
  modify (set_prev_net cur_net) ;;;
  modify (fun a => set_cpu_history (Deque.append (cpu_history a) cpu) a) ;;;
  ret {| cpu := cpu; mem := mem; proc_count := proc_count;
         read_bps := read_bps; write_bps := write_bps;
         sent_bps := sent_bps; recv_bps := recv_bps;
         timestamp := now |}.

(** ** [_update_widgets] *)

(** [round(x, d)]: the binary64 nearest to the decimal with [d] fractional
    digits that is nearest to [x]. *)
Definition round_ndigits (d : nat) (x : PyFloat.float) : PyFloat.float :=
  match x with
  | S754_finite s m e =>
      match PyFloat.scaled d m e with
      | Z0 => S754_zero s
      | n =>
          let '(mz, ez, lz) :=
            SFdiv_core_binary PyFloat.prec PyFloat.emax n 0 (10 ^ Z.of_nat d) 0 in
          binary_round_aux PyFloat.prec PyFloat.emax s mz ez lz
      end
  | _ => x
  end.

Definition set_cpu_percent_var (v : PyFloat.float) (w : Widgets) : Widgets :=
  {| cpu_percent_var := v; mem_percent_var := mem_percent_var w;
     proc_count_var := proc_count_var w; disk_read_var := disk_read_var w;
     disk_write_var := disk_write_var w; net_sent_var := net_sent_var w;
     net_recv_var := net_recv_var w; last_update_var := last_update_var w;
     line := line w |}.

Definition set_mem_percent_var (v : PyFloat.float) (w : Widgets) : Widgets :=
  {| cpu_percent_var := cpu_percent_var w; mem_percent_var := v;
     proc_count_var := proc_count_var w; disk_read_var := disk_read_var w;
     disk_write_var := disk_write_var w; net_sent_var := net_sent_var w;
     net_recv_var := net_recv_var w; last_update_var := last_update_var w;
     line := line w |}.

Definition set_proc_count_var (v : Z) (w : Widgets) : Widgets :=
  {| cpu_percent_var := cpu_percent_var w; mem_percent_var := mem_percent_var w;
     proc_count_var := v; disk_read_var := disk_read_var w;
     disk_write_var := disk_write_var w; net_sent_var := net_sent_var w;
     net_recv_var := net_recv_var w; last_update_var := last_update_var w;
     line := line w |}.

Definition set_disk_read_var (v : string) (w : Widgets) : Widgets :=
  {| cpu_percent_var := cpu_percent_var w; mem_percent_var := mem_percent_var w;
     proc_count_var := proc_count_var w; disk_read_var := v;
     disk_write_var := disk_write_var w; net_sent_var := net_sent_var w;
     net_recv_var := net_recv_var w; last_update_var := last_update_var w;
     line := line w |}.

Definition set_disk_write_var (v : string) (w : Widgets) : Widgets :=
  {| cpu_percent_var := cpu_percent_var w; mem_percent_var := mem_percent_var w;
     proc_count_var := proc_count_var w; disk_read_var := disk_read_var w;
     disk_write_var := v; net_sent_var := net_sent_var w;
     net_recv_var := net_recv_var w; last_update_var := last_update_var w;
     line := line w |}.

Definition set_net_sent_var (v : string) (w : Widgets) : Widgets :=
  {| cpu_percent_var := cpu_percent_var w; mem_percent_var := mem_percent_var w;
     proc_count_var := proc_count_var w; disk_read_var := disk_read_var w;
     disk_write_var := disk_write_var w; net_sent_var := v;
     net_recv_var := net_recv_var w; last_update_var := last_update_var w;
     line := line w |}.

Definition set_net_recv_var (v : string) (w : Widgets) : Widgets :=
  {| cpu_percent_var := cpu_percent_var w; mem_percent_var := mem_percent_var w;
     proc_count_var := proc_count_var w; disk_read_var := disk_read_var w;
     disk_write_var := disk_write_var w; net_sent_var := net_sent_var w;
     net_recv_var := v; last_update_var := last_update_var w;
     line := line w |}.

Definition set_last_update_var (v : string) (w : Widgets) : Widgets :=
  {| cpu_percent_var := cpu_percent_var w; mem_percent_var := mem_percent_var w;
     proc_count_var := proc_count_var w; disk_read_var := disk_read_var w;
     disk_write_var := disk_write_var w; net_sent_var := net_sent_var w;
     net_recv_var := net_recv_var w; last_update_var := v;
     line := line w |}.

Definition set_line (v : option (list PyFloat.float)) (w : Widgets) : Widgets :=
  {| cpu_percent_var := cpu_percent_var w; mem_percent_var := mem_percent_var w;
     proc_count_var := proc_count_var w; disk_read_var := disk_read_var w;
     disk_write_var := disk_write_var w; net_sent_var := net_sent_var w;
     net_recv_var := net_recv_var w; last_update_var := last_update_var w;
     line := v |}.

(** A Tk variable [set] or a write on the plotted line. *)
Definition widget (f : Widgets -> Widgets) : M unit :=
  modify (fun a => set_widgets (f (widgets a)) a).

Definition _update_widgets (h : Host) (metrics : Metrics) : M unit :=
  widget (set_cpu_percent_var (round_ndigits 1 (cpu metrics))) ;;;
  widget (set_mem_percent_var (round_ndigits 1 (mem metrics))) ;;;
  widget (set_proc_count_var (proc_count metrics)) ;;;
  s <- call (_format_bytes (read_bps metrics)) ;;
  widget (set_disk_read_var s) ;;;
  s <- call (_format_bytes (write_bps metrics)) ;;
  widget (set_disk_write_var s) ;;;
  s <- call (_format_bytes (sent_bps metrics)) ;;
  widget (set_net_sent_var s) ;;;
  s <- call (_format_bytes (recv_bps metrics)) ;;
  widget (set_net_recv_var s) ;;;
  s <- call (outcome StrftimeError (strftime_localtime h (timestamp metrics))) ;;
  widget (set_last_update_var s) ;;;
  self <- get ;;
  match line (widgets self) with
  | Some _ =>
      widget (set_line (Some (Deque.to_list (cpu_history self)))) ;;;
      call (outcome DrawError (draw_idle h))
  | None => ret tt
  end.

(** ** [_schedule_update] and Tk's timer loop *)

(** [root.after(ms, cb)] *)
Definition after (ms : Z) (cb : callback) (a : App) : App :=
  set_timers (timers a ++ [(ms, cb)])%list a.

(** [print(..., e)] in the handler: the message reaches the console, or the
    write raises (a closed stream, a message the stream cannot encode). *)
Definition print (h : Host) (e : exn) : M unit :=
  call (outcome PrintError (console h)) ;;;
  modify (fun a => set_stdout (stdout a ++ [e])%list a).

(** The body of the [try] block. *)
Definition tick_body (h : Host) : M unit :=
  metrics <- _collect_metrics h ;; _update_widgets h metrics.

(** The handler runs outside the [try] block and before [root.after]: an
    exception it raises leaves [_schedule_update] with nothing queued. *)
Definition _schedule_update (h : Host) : M unit :=
  fun self =>
    let '(r, self) := tick_body h self in
    let '(p, self) :=
      match r with
      | Ok _ => (Ok tt, self)
      | Raise e => print h e self
      end in
    match p with
    | Ok _ => (Ok tt, after UPDATE_INTERVAL_MS Schedule_update self)
    | Raise e' => (Raise e', self)
    end.

Definition fire (cb : callback) (h : Host) : M unit :=
  match cb with
  | Schedule_update => _schedule_update h
  end.

(** One turn of [root.mainloop()]: the oldest pending timer fires, against
    what the host answers at that moment; Tk reports an exception that
    escapes the callback and goes on with the state the callback left; with
    no timer pending the periodic update has stopped. *)
Definition mainloop_step (h : Host) (a : App) : option App :=
  match timers a with
  | [] => None
  | (_, cb) :: rest => Some (snd (fire cb h (set_timers rest a)))
  end.

Fixpoint mainloop (hs : list Host) (a : App) : option App :=
  match hs with
  | [] => Some a
  | h :: hs' =>
      match mainloop_step h a with
      | Some a' => mainloop hs' a'
      | None => None
      end
  end.

(** ** [__init__] *)

Definition new_history : Deque.deque PyFloat.float :=
  Deque.make (repeat PyFloat.zero CPU_HISTORY_LEN) CPU_HISTORY_LEN.

(** The state [__init__] hands to the first update. *)

Definition init_state (matplotlib : bool) (d : psutil.sdiskio)
    (n : psutil.snetio) (t : PyFloat.float) : App :=
  {| widgets :=
       {| cpu_percent_var := PyFloat.zero; mem_percent_var := PyFloat.zero;
          proc_count_var := 0;
          disk_read_var := "0 B/s"; disk_write_var := "0 B/s";
          net_sent_var := "0 B/s"; net_recv_var := "0 B/s";
          last_update_var := "";
          line := if matplotlib
                  then Some (Deque.to_list new_history) else None |};
     cpu_history := new_history;
     prev_disk := d; prev_net := n; prev_time := t;
     timers := []; stdout := [] |}.

(** [h0] is the host at construction, [h1] at the first update, which
    [__init__] runs itself; [matplotlib] is [MATPLOTLIB_AVAILABLE].  An
    exception that escapes the first update escapes the constructor. *)
Definition __init__ (matplotlib : bool) (h0 h1 : Host) : result App :=
  rbind (outcome (HostError Disk) (disk_io_counters h0)) (fun d =>
  rbind (outcome (HostError Network) (net_io_counters h0)) (fun n =>
    match _schedule_update h1 (init_state matplotlib d n (time_time h0)) with
    | (Ok _, a) => Ok a
    | (Raise e, _) => Raise e
    end)).

(** ** The four cumulative counters, as [_collect_metrics] reads them *)

Inductive counter : Type := DiskRead | DiskWrite | NetSent | NetRecv.

Definition reading (c : counter) (d : psutil.sdiskio) (n : psutil.snetio) : Z :=
  match c with
  | DiskRead => psutil.read_bytes d
  | DiskWrite => psutil.write_bytes d
  | NetSent => psutil.bytes_sent n
  | NetRecv => psutil.bytes_recv n
  end.

(** The cumulative value stored by the previous collection. *)
Definition previous (c : counter) (self : App) : Z :=
  reading c (prev_disk self) (prev_net self).

(** The rate field of the snapshot derived from a counter. *)
Definition rate (c : counter) (m : Metrics) : PyFloat.float :=
  match c with
  | DiskRead => read_bps m
  | DiskWrite => write_bps m
  | NetSent => sent_bps m
  | NetRecv => recv_bps m
  end.

(** ** Sample hosts and states *)

Module Sample.

Definition secs (n : Z) : PyFloat.float := PyFloat.of_Z n.

(** A host on which every call returns. *)
Definition host (now : Z) (c v : PyFloat.float) (rd wr sn rc : Z) : Host :=
  {| time_time := secs now;
     cpu_percent := Some c;
     virtual_memory_percent := Some v;
     pids := Some [1; 2; 3];
     disk_io_counters := Some {| psutil.read_bytes := rd; psutil.write_bytes := wr |};
     net_io_counters := Some {| psutil.bytes_sent := sn; psutil.bytes_recv := rc |};
     strftime_localtime := fun _ => Some "2025-11-18 12:00:00";
     draw_idle := Some tt;
     console := Some tt |}.

(** The same host with the CPU read raising. *)
Definition host_cpu_fails (now : Z) (rd wr sn rc : Z) : Host :=
  {| time_time := secs now;
     cpu_percent := None;
     virtual_memory_percent := Some (secs 40);
     pids := Some [1; 2; 3];
     disk_io_counters := Some {| psutil.read_bytes := rd; psutil.write_bytes := wr |};
     net_io_counters := Some {| psutil.bytes_sent := sn; psutil.bytes_recv := rc |};
     strftime_localtime := fun _ => Some "2025-11-18 12:00:00";
     draw_idle := Some tt;
     console := Some tt |}.

(** The same host with the network read raising. *)
Definition host_net_fails (now : Z) (rd wr : Z) : Host :=
  {| time_time := secs now;
     cpu_percent := Some (secs 10);
     virtual_memory_percent := Some (secs 40);
     pids := Some [1; 2; 3];
     disk_io_counters := Some {| psutil.read_bytes := rd; psutil.write_bytes := wr |};
     net_io_counters := None;
     strftime_localtime := fun _ => Some "2025-11-18 12:00:00";
     draw_idle := Some tt;
     console := Some tt |}.

(** The CPU read raises and the console refuses the write of [print]. *)
Definition host_console_fails (now : Z) (rd wr sn rc : Z) : Host :=
  {| time_time := secs now;
     cpu_percent := None;
     virtual_memory_percent := Some (secs 40);
     pids := Some [1; 2; 3];
     disk_io_counters := Some {| psutil.read_bytes := rd; psutil.write_bytes := wr |};
     net_io_counters := Some {| psutil.bytes_sent := sn; psutil.bytes_recv := rc |};
     strftime_localtime := fun _ => Some "2025-11-18 12:00:00";
     draw_idle := Some tt;
     console := None |}.

(** The same host with the presentation layer raising. *)
Definition host_draw_fails (now : Z) (rd wr sn rc : Z) : Host :=
  {| time_time := secs now;
     cpu_percent := Some (secs 10);
     virtual_memory_percent := Some (secs 40);
     pids := Some [1; 2; 3];
     disk_io_counters := Some {| psutil.read_bytes := rd; psutil.write_bytes := wr |};
     net_io_counters := Some {| psutil.bytes_sent := sn; psutil.bytes_recv := rc |};
     strftime_localtime := fun _ => None;
     draw_idle := None;
     console := Some tt |}.

Definition widgets0 : Widgets :=
  {| cpu_percent_var := PyFloat.zero; mem_percent_var := PyFloat.zero;
     proc_count_var := 0;
     disk_read_var := "0 B/s"; disk_write_var := "0 B/s";
     net_sent_var := "0 B/s"; net_recv_var := "0 B/s";
     last_update_var := ""; line := None |}.

(** A state whose last sample was taken at instant 100 with the counters
    at 1000, 2000, 3000 and 4000 bytes. *)
Definition app (pending : list (Z * callback)) : App :=
  {| widgets := widgets0;
     cpu_history := new_history;
     prev_disk := {| psutil.read_bytes := 1000; psutil.write_bytes := 2000 |};
     prev_net := {| psutil.bytes_sent := 3000; psutil.bytes_recv := 4000 |};
     prev_time := secs 100;
     timers := pending; stdout := [] |}.

End Sample.

(** ** What the presentation layer may not touch *)

(** [s'] agrees with [s] on the sampler's state, the timers and the console. *)
Definition untouched (s s' : App) : Prop :=
  timers s' = timers s /\ stdout s' = stdout s /\
  cpu_history s' = cpu_history s /\
  prev_disk s' = prev_disk s /\ prev_net s' = prev_net s /\
  prev_time s' = prev_time s.

(** A computation that writes nothing but widgets. *)
Definition frame {A : Type} (c : M A) : Prop :=
  forall s : App, untouched s (snd (c s)).

(** The sign bit of a float ([math.copysign(1.0, x) < 0]); [false] on NaN. *)
Definition sign_bit (x : PyFloat.float) : bool :=
  match x with
  | S754_zero s | S754_infinity s | S754_finite s _ _ => s
  | S754_nan => false
  end.

(** 0.5 and -0.5. *)
Definition f0_5 : PyFloat.float := S754_finite false PyFloat.pow2_52 (-53).
Definition fm0_5 : PyFloat.float := S754_finite true PyFloat.pow2_52 (-53).

(** ** When a tick ends normally *)

(** The [try] block returned, or the console takes the handler's message. *)
Definition handled (h : Host) (st : App) : Prop :=
  match fst (tick_body h st) with
  | Ok _ => True
  | Raise _ => console h = Some tt
  end.

(** * Properties *)

(** ** Injectivity, without computing *)

Lemma Ok_inj {A : Type} (a b : A) : Ok a = Ok b -> a = b.
Proof.
  intros H.
  exact (f_equal (fun r => match r with Ok v => v | Raise _ => a end) H).
Qed.

Lemma Some_inj {A : Type} (a b : A) : Some a = Some b -> a = b.
Proof.
  intros H.
  exact (f_equal (fun o => match o with Some v => v | None => a end) H).
Qed.

Lemma pair_inj {A B : Type} (a a' : A) (b b' : B) :
  (a, b) = (a', b') -> a = a' /\ b = b'.
Proof.
  intros H. split; [exact (f_equal fst H) | exact (f_equal snd H)].
Qed.

(** ** What a returning collection did *)

Ltac run_monad :=
  unfold bind, call, get, modify, ret, widget, outcome in *; cbn beta iota in *.

Lemma collect_returns (h : Host) (st st' : App) (m : Metrics) :
  _collect_metrics h st = (Ok m, st') ->
  exists c0 v ps cd cn,
    cpu_percent h = Some c0 /\
    virtual_memory_percent h = Some v /\
    pids h = Some ps /\
    disk_io_counters h = Some cd /\
    net_io_counters h = Some cn /\
    (forall c : counter,
        PyFloat.int_truediv (byte_delta (reading c cd cn) (previous c st))
          (elapsed (time_time h) st) = Ok (rate c m)) /\
    cpu m = c0 /\ mem m = v /\
    proc_count m = Z.of_nat (List.length ps) /\
    timestamp m = time_time h /\
    st' = set_cpu_history (Deque.append (cpu_history st) c0)
            (set_prev_net cn (set_prev_disk cd (set_prev_time (time_time h) st))).
Proof.
  unfold _collect_metrics. run_monad.
  destruct (cpu_percent h) as [c0|]; [|discriminate].
  destruct (virtual_memory_percent h) as [v|]; [|discriminate].
  destruct (pids h) as [ps|]; [|discriminate].
  destruct (disk_io_counters h) as [cd|]; [|discriminate].
  cbn.
  destruct (PyFloat.int_truediv _ _) as [r1|] eqn:E1; [|discriminate].
  destruct (PyFloat.int_truediv (byte_delta (psutil.write_bytes cd) _) _)
    as [r2|] eqn:E2; [|discriminate].
  destruct (net_io_counters h) as [cn|]; [|discriminate].
  cbn.
  destruct (PyFloat.int_truediv (byte_delta (psutil.bytes_sent cn) _) _)
    as [r3|] eqn:E3; [|discriminate].
  destruct (PyFloat.int_truediv (byte_delta (psutil.bytes_recv cn) _) _)
    as [r4|] eqn:E4; [|discriminate].
  intros H. injection H as Hm Hst. subst m st'.
  exists c0, v, ps, cd, cn.
  repeat split; try reflexivity.
  intros [ | | | ]; cbn; assumption.
Qed.

(** A division of an [int] by a [float] raises nothing but the two arithmetic
    errors. *)
Lemma int_truediv_raises (a : Z) (b : PyFloat.float) (e : exn) :
  PyFloat.int_truediv a b = Raise e ->
  e = OverflowError \/ (e = ZeroDivisionError /\ PyFloat.is_zero b = true).
Proof.
  unfold PyFloat.int_truediv, PyFloat.of_int, rbind.
  destruct (PyFloat.of_Z a); destruct (PyFloat.is_zero b); intros H;
    inversion H; auto.
Qed.

(** ** What a collection that raised left behind *)

Lemma collect_raises (h : Host) (st st' : App) (e : exn) :
  _collect_metrics h st = (Raise e, st') ->
  widgets st' = widgets st /\ timers st' = timers st /\ stdout st' = stdout st /\
  cpu_history st' = cpu_history st /\
  prev_net st' = prev_net st /\
  prev_time st' = time_time h /\
  ((exists s, e = HostError s /\ s <> Network /\ prev_disk st' = prev_disk st) \/
   (e = HostError Network /\ Some (prev_disk st') = disk_io_counters h) \/
   e = OverflowError \/
   (e = ZeroDivisionError /\
    PyFloat.is_zero (elapsed (time_time h) st) = true)).
Proof.
  unfold _collect_metrics. run_monad.
  destruct (cpu_percent h) as [c0|];
    [|intros H; inversion H; subst; cbn; repeat split;
      left; exists Cpu; repeat split; discriminate].
  destruct (virtual_memory_percent h) as [v|];
    [|intros H; inversion H; subst; cbn; repeat split;
      left; exists Memory; repeat split; discriminate].
  destruct (pids h) as [ps|];
    [|intros H; inversion H; subst; cbn; repeat split;
      left; exists Process; repeat split; discriminate].
  destruct (disk_io_counters h) as [cd|];
    [|intros H; inversion H; subst; cbn; repeat split;
      left; exists Disk; repeat split; discriminate].
  cbn.
  destruct (PyFloat.int_truediv _ _) as [r1|e1] eqn:E1;
    [|intros H; inversion H; subst; cbn; repeat split;
      right; right; destruct (int_truediv_raises _ _ _ E1) as [->|[-> Hz]]; auto].
  destruct (PyFloat.int_truediv (byte_delta (psutil.write_bytes cd) _) _)
    as [r2|e2] eqn:E2;
    [|intros H; inversion H; subst; cbn; repeat split;
      right; right; destruct (int_truediv_raises _ _ _ E2) as [->|[-> Hz]]; auto].
  destruct (net_io_counters h) as [cn|];
    [|intros H; inversion H; subst; cbn; repeat split;
      right; left; split; reflexivity].
  cbn.
  destruct (PyFloat.int_truediv (byte_delta (psutil.bytes_sent cn) _) _)
    as [r3|e3] eqn:E3;
    [|intros H; inversion H; subst; cbn; repeat split;
      right; right; destruct (int_truediv_raises _ _ _ E3) as [->|[-> Hz]]; auto].
  destruct (PyFloat.int_truediv (byte_delta (psutil.bytes_recv cn) _) _)
    as [r4|e4] eqn:E4;
    [|intros H; inversion H; subst; cbn; repeat split;
      right; right; destruct (int_truediv_raises _ _ _ E4) as [->|[-> Hz]]; auto].
  discriminate.
Qed.

(** ** The bounded deque *)

Section DequeFacts.

Context {A : Type}.
Implicit Types (d : Deque.deque A) (x : A) (xs : list A).

Lemma append_maxlen d x : Deque.maxlen (Deque.append d x) = Deque.maxlen d.
Proof. reflexivity. Qed.

(** An append keeps the last [maxlen] elements of the extended sequence. *)
Lemma append_items d x :
  (List.length (Deque.items d) <= Deque.maxlen d)%nat ->
  Deque.items (Deque.append d x) =
  skipn (List.length (Deque.items d ++ [x])%list - Deque.maxlen d)
    (Deque.items d ++ [x])%list.
Proof.
  intros Hle. unfold Deque.append. cbn [Deque.items Deque.maxlen].
  assert (Hl : List.length (Deque.items d ++ [x])%list =
               S (List.length (Deque.items d)))
    by (rewrite length_app; cbn; lia).
  destruct (Nat.ltb_spec (Deque.maxlen d)
              (List.length (Deque.items d ++ [x])%list)) as [Hlt|Hge].
  - replace (List.length (Deque.items d ++ [x])%list - Deque.maxlen d)%nat
      with 1%nat by lia.
    destruct (Deque.items d ++ [x])%list; reflexivity.
  - replace (List.length (Deque.items d ++ [x])%list - Deque.maxlen d)%nat
      with 0%nat by lia.
    reflexivity.
Qed.




End DequeFacts.

(** ** What the presentation step leaves alone *)

Lemma untouched_refl (s : App) : untouched s s.
Proof. repeat split. Qed.

Lemma untouched_trans (s1 s2 s3 : App) :
  untouched s1 s2 -> untouched s2 s3 -> untouched s1 s3.
Proof.
  unfold untouched. intros (A1 & A2 & A3 & A4 & A5 & A6) (B1 & B2 & B3 & B4 & B5 & B6).
  repeat split; congruence.
Qed.

Lemma frame_ret {A : Type} (a : A) : frame (ret a).
Proof. intros s. apply untouched_refl. Qed.

Lemma frame_get : frame get.
Proof. intros s. apply untouched_refl. Qed.

Lemma frame_call {A : Type} (r : result A) : frame (call r).
Proof. intros s. apply untouched_refl. Qed.

Lemma frame_widget (f : Widgets -> Widgets) : frame (widget f).
Proof. intros s. repeat split. Qed.

Lemma frame_bind {A B : Type} (c : M A) (k : A -> M B) :
  frame c -> (forall a, frame (k a)) -> frame (bind c k).
Proof.
  intros Hc Hk s. unfold bind.
  specialize (Hc s). destruct (c s) as [[a|e] s1]; cbn [snd] in *.
  - eapply untouched_trans; [exact Hc | apply Hk].
  - exact Hc.
Qed.

Lemma update_widgets_frame (h : Host) (m : Metrics) :
  frame (_update_widgets h m).
Proof.
  unfold _update_widgets.
  repeat (apply frame_bind;
          [first [apply frame_widget | apply frame_call | apply frame_get]
          | intros ?]).
  match goal with
  | |- frame (match line (widgets ?self) with _ => _ end) =>
      destruct (line (widgets self))
  end.
  - apply frame_bind; [apply frame_widget | intros ?; apply frame_call].
  - apply frame_ret.
Qed.

Lemma tick_body_frame (h : Host) (st : App) :
  timers (snd (tick_body h st)) = timers st /\
  stdout (snd (tick_body h st)) = stdout st.
Proof.
  unfold tick_body, bind.
  destruct (_collect_metrics h st) as [[m|e] st1] eqn:E.
  - apply collect_returns in E.
    destruct E as (c0 & v & ps & cd & cn & _ & _ & _ & _ & _ & _ & _ & _ & _ & _ & ->).
    destruct (update_widgets_frame h m
      (set_cpu_history (Deque.append (cpu_history st) c0)
         (set_prev_net cn (set_prev_disk cd (set_prev_time (time_time h) st)))))
      as (Ht & Hs & _).
    cbn [snd]. rewrite Ht, Hs. split; reflexivity.
  - apply collect_raises in E. cbn. tauto.
Qed.

Lemma print_unfold (h : Host) (e : exn) (s : App) :
  print h e s =
  match console h with
  | Some _ => (Ok tt, set_stdout (stdout s ++ [e])%list s)
  | None => (Raise PrintError, s)
  end.
Proof.
  unfold print, bind, call, outcome, modify. destruct (console h); reflexivity.
Qed.

Lemma schedule_update_unfold (h : Host) (st : App) :
  _schedule_update h st =
  match fst (tick_body h st) with
  | Ok _ =>
      (Ok tt, after UPDATE_INTERVAL_MS Schedule_update (snd (tick_body h st)))
  | Raise e =>
      match console h with
      | Some _ =>
          (Ok tt,
           after UPDATE_INTERVAL_MS Schedule_update
             (set_stdout (stdout (snd (tick_body h st)) ++ [e])%list
                (snd (tick_body h st))))
      | None => (Raise PrintError, snd (tick_body h st))
      end
  end.
Proof.
  unfold _schedule_update.
  destruct (tick_body h st) as [[u|e] s1]; cbn [fst snd]; [reflexivity|].
  rewrite print_unfold. destruct (console h); reflexivity.
Qed.

Lemma console_handled (h : Host) (st : App) :
  console h = Some tt -> handled h st.
Proof.
  intros Hc. unfold handled. destruct (fst (tick_body h st)); [exact I | exact Hc].
Qed.

(** When the [try] block returned or its exception could be printed, the
    tick ends normally with the next update queued. *)
Lemma schedule_update_timers (h : Host) (st : App) :
  handled h st ->
  fst (_schedule_update h st) = Ok tt /\
  timers (snd (_schedule_update h st)) =
  (timers st ++ [(UPDATE_INTERVAL_MS, Schedule_update)])%list.
Proof.
  unfold handled. intros Hh. rewrite schedule_update_unfold.
  destruct (tick_body_frame h st) as [Ht _].
  destruct (fst (tick_body h st)); [cbn; rewrite Ht; split; reflexivity|].
  rewrite Hh. cbn. rewrite Ht. split; reflexivity.
Qed.

(** An exception raised inside the [try] block ends up on the console when
    the console takes it. *)
Lemma schedule_update_stdout (h : Host) (st : App) :
  stdout (snd (_schedule_update h st)) =
  match fst (tick_body h st) with
  | Ok _ => stdout st
  | Raise e =>
      match console h with
      | Some _ => (stdout st ++ [e])%list
      | None => stdout st
      end
  end.
Proof.
  rewrite schedule_update_unfold.
  destruct (tick_body_frame h st) as [_ Hs].
  destruct (fst (tick_body h st)); [cbn; exact Hs|].
  destruct (console h); cbn; rewrite Hs; reflexivity.
Qed.

(** When the handler's [print] raises, the exception leaves the tick and
    nothing is queued. *)
Lemma schedule_update_escapes (h : Host) (st : App) (e : exn) :
  fst (tick_body h st) = Raise e -> console h = None ->
  fst (_schedule_update h st) = Raise PrintError /\
  timers (snd (_schedule_update h st)) = timers st.
Proof.
  intros He Hc. rewrite schedule_update_unfold, He, Hc.
  destruct (tick_body_frame h st) as [Ht _].
  cbn. split; [reflexivity | exact Ht].
Qed.


(** ** Binary64 arithmetic *)

Section FloatFacts.

Import PyFloat.

Lemma digits2_pos_bounds (m : positive) :
  2 ^ (Zpos (digits2_pos m) - 1) <= Zpos m < 2 ^ Zpos (digits2_pos m).
Proof.
  induction m as [m IH|m IH|]; cbn [digits2_pos].
  - rewrite Pos2Z.inj_succ.
    replace (Z.succ (Zpos (digits2_pos m)) - 1)
      with (Z.succ (Zpos (digits2_pos m) - 1)) by lia.
    rewrite !Z.pow_succ_r by lia. lia.
  - rewrite Pos2Z.inj_succ.
    replace (Z.succ (Zpos (digits2_pos m)) - 1)
      with (Z.succ (Zpos (digits2_pos m) - 1)) by lia.
    rewrite !Z.pow_succ_r by lia. lia.
  - cbn. lia.
Qed.

(** *** Rounding keeps the sign *)

Lemma shr_1_nonneg mrs : 0 <= shr_m mrs -> 0 <= shr_m (shr_1 mrs).
Proof.
  destruct mrs as [m r s]. cbn. destruct m as [|[p|p|]|p]; cbn; lia.
Qed.

Lemma iter_pos_invariant {A : Type} (P : A -> Prop) (f : A -> A) :
  (forall a, P a -> P (f a)) -> forall p a, P a -> P (iter_pos f p a).
Proof.
  intros Hf. induction p; intros a Ha; cbn; auto.
Qed.

Lemma shr_fexp_nonneg m e l :
  0 <= m -> 0 <= shr_m (fst (shr_fexp prec emax m e l)).
Proof.
  intros Hm. unfold shr_fexp, shr.
  assert (H0 : 0 <= shr_m (shr_record_of_loc m l)).
  { destruct l as [|[ | | ]]; cbn; assumption. }
  destruct (fexp prec emax (Zdigits2 m + e) - e); cbn; try assumption.
  apply (iter_pos_invariant (fun r => 0 <= shr_m r)); auto using shr_1_nonneg.
Qed.

Lemma round_nearest_even_nonneg m l : 0 <= m -> 0 <= round_nearest_even m l.
Proof.
  intros Hm. unfold round_nearest_even.
  destruct l as [|[ | | ]]; try lia. destruct (Z.even m); lia.
Qed.

Lemma binary_round_aux_signed s m e l :
  0 <= m -> signed s (binary_round_aux prec emax s m e l).
Proof.
  intros Hm. unfold binary_round_aux.
  pose proof (shr_fexp_nonneg m e l Hm) as H1.
  destruct (shr_fexp prec emax m e l) as [mrs' e']. cbn [fst] in H1.
  pose proof (shr_fexp_nonneg _ e' loc_Exact
                (round_nearest_even_nonneg _ (loc_of_shr_record mrs') H1)) as H2.
  destruct (shr_fexp prec emax _ e' loc_Exact) as [mrs'' e'']. cbn [fst] in H2.
  destruct (shr_m mrs'') as [|p|p]; [reflexivity| |lia].
  destruct (e'' <=? emax - prec)%Z; reflexivity.
Qed.

(** The float of a non-negative [int] is not negative. *)
Lemma of_Z_signed a : 0 <= a -> signed false (of_Z a).
Proof.
  intros Ha. destruct a as [|p|p]; [reflexivity| |lia].
  unfold of_Z, binary_normalize, binary_round.
  destruct (shl_align p 0 _) as [mz ez].
  apply binary_round_aux_signed. lia.
Qed.

Lemma div_core_nonneg m1 e1 m2 e2 :
  0 <= m1 -> 0 < m2 ->
  0 <= fst (fst (SFdiv_core_binary prec emax m1 e1 m2 e2)).
Proof.
  intros H1 H2. unfold SFdiv_core_binary.
  set (s := _ - _ - _).
  set (m' := match s with Z0 => m1 | Zpos _ => Z.shiftl m1 s | Zneg _ => 0 end).
  assert (Hm' : 0 <= m').
  { unfold m'. destruct s; try lia. apply Z.shiftl_nonneg. assumption. }
  pose proof (Z.div_pos m' m2 Hm' H2) as Hq.
  unfold Z.div in Hq.
  destruct (Z.div_eucl m' m2) as [q r]. cbn. exact Hq.
Qed.

(** A non-negative finite dividend over a positive divisor gives a
    non-negative quotient. *)
Lemma div_signed x y :
  signed false x -> is_finite x = true -> ltb zero y = true ->
  signed false (div x y).
Proof.
  intros Hx Hfin Hy.
  destruct y as [sy|sy| |sy my ey]; try discriminate;
    destruct sy; try discriminate;
    destruct x as [sx|sx| |sx mx ex]; cbn in Hx, Hfin;
    try contradiction; try discriminate; subst;
    try reflexivity.
  unfold div, SFdiv.
  pose proof (div_core_nonneg (Zpos mx) ex (Zpos my) ey
                ltac:(lia) ltac:(lia)) as H.
  destruct (SFdiv_core_binary prec emax (Zpos mx) ex (Zpos my) ey)
    as [[mz ez] lz].
  cbn [fst] in H. apply binary_round_aux_signed. exact H.
Qed.

Lemma signed_false_nonneg x : signed false x -> leb zero x = true.
Proof.
  destruct x as [s|s| |s m e]; cbn; try contradiction; intros ->; reflexivity.
Qed.

(** *** Division by a power of two is exact on normal numbers *)

Lemma shr_fexp_stay m e l :
  fexp prec emax (Zdigits2 m + e) = e ->
  shr_fexp prec emax m e l = (shr_record_of_loc m l, e).
Proof.
  intros H. unfold shr_fexp. rewrite H, Z.sub_diag. reflexivity.
Qed.

Lemma shr_fexp_once m e l :
  fexp prec emax (Zdigits2 m + e) = e + 1 ->
  shr_fexp prec emax m e l = (shr_1 (shr_record_of_loc m l), e + 1).
Proof.
  intros H. unfold shr_fexp. rewrite H.
  replace (e + 1 - e) with 1 by lia. reflexivity.
Qed.

Lemma div_eucl_exact (a b q : Z) :
  0 < b -> a = b * q -> Z.div_eucl a b = (q, 0).
Proof.
  intros Hb Ha.
  pose proof (Z_div_mod a b ltac:(lia)) as H.
  destruct (Z.div_eucl a b) as [q' r'].
  destruct H as [Heq Hr].
  assert (q' = q) by nia. subst q'.
  assert (r' = 0) by lia. subst r'. reflexivity.
Qed.

Lemma div_core_pow2 (m : positive) (e k : Z) :
  Zpos (digits2_pos m) = 53 -> -1073 <= e - k ->
  SFdiv_core_binary prec emax (Zpos m) e (Zpos pow2_52) (k - 52) =
  (Zpos m~0, e - k - 1, loc_Exact).
Proof.
  intros Hd Hlo. unfold SFdiv_core_binary.
  cbn [Zdigits2]. rewrite Hd.
  change (Zpos (digits2_pos pow2_52)) with 53.
  assert (He : Z.min (fexp prec emax (53 + e - (53 + (k - 52)))) (e - (k - 52))
               = e - k - 1).
  { unfold fexp, SpecFloat.emin, prec, emax. lia. }
  rewrite He.
  replace (e - (k - 52) - (e - k - 1)) with 53 by lia.
  rewrite Z.shiftl_mul_pow2 by lia.
  rewrite (div_eucl_exact (Zpos m * 2 ^ 53) (Zpos pow2_52) (Zpos m~0)).
  - reflexivity.
  - lia.
  - change (2 ^ 53) with 9007199254740992. unfold pow2_52. lia.
Qed.

(** [x / 2^k] keeps the mantissa of a normal [x] and lowers its exponent. *)
Lemma div_pow2 (s : bool) (m : positive) (e k : Z) :
  Zpos (digits2_pos m) = 53 -> -1073 <= e - k -> e - k <= 971 ->
  div (S754_finite s m e) (S754_finite false pow2_52 (k - 52)) =
  S754_finite s m (e - k).
Proof.
  intros Hd Hlo Hhi. unfold div, SFdiv.
  rewrite (div_core_pow2 m e k Hd Hlo).
  unfold binary_round_aux.
  rewrite (shr_fexp_once (Zpos m~0) (e - k - 1) loc_Exact).
  2:{ cbn [Zdigits2 digits2_pos]. rewrite Pos2Z.inj_succ, Hd.
      unfold fexp, SpecFloat.emin, prec, emax. lia. }
  cbn [shr_record_of_loc shr_1 shr_m loc_of_shr_record round_nearest_even orb].
  rewrite (shr_fexp_stay (Zpos m) (e - k - 1 + 1) loc_Exact).
  2:{ cbn [Zdigits2]. rewrite Hd.
      unfold fexp, SpecFloat.emin, prec, emax. lia. }
  cbn [shr_record_of_loc shr_m].
  replace (e - k - 1 + 1) with (e - k) by lia.
  rewrite xorb_false_r.
  destruct (Z.leb_spec (e - k) (emax - prec)) as [_|Hc];
    [reflexivity | unfold emax, prec in Hc; lia].
Qed.

(** *** Well-formed numbers and comparisons with powers of two *)

Lemma valid_finite (s : bool) (m : positive) (e : Z) :
  valid (S754_finite s m e) = true ->
  e <= 971 /\ -1074 <= e /\ Zpos (digits2_pos m) <= 53 /\
  (-1074 < e -> Zpos (digits2_pos m) = 53).
Proof.
  unfold valid, valid_binary, bounded, canonical_mantissa, fexp,
    SpecFloat.emin, prec, emax.
  intros H. apply andb_prop in H. destruct H as [Hc Hb].
  apply Z.eqb_eq in Hc. apply Z.leb_le in Hb. lia.
Qed.

Lemma normal_mantissa (m : positive) :
  Zpos (digits2_pos m) = 53 -> 2 ^ 52 <= Zpos m < 2 ^ 53.
Proof.
  intros H. pose proof (digits2_pos_bounds m) as Hb. rewrite H in Hb.
  exact Hb.
Qed.

(** Against [2^52 * 2^c], a positive normal number compares by exponent. *)
Lemma ltb_pow2 (m : positive) (e c : Z) :
  Zpos (digits2_pos m) = 53 ->
  ltb (S754_finite false m e) (S754_finite false pow2_52 c) = (e <? c)%Z.
Proof.
  intros Hd. apply normal_mantissa in Hd.
  change (2 ^ 52) with (Zpos pow2_52) in Hd.
  unfold ltb, SFltb, SFcompare.
  destruct (Z.compare_spec e c) as [He|He|He];
    destruct (Z.ltb_spec e c); try lia; try reflexivity.
  rewrite Pos.compare_cont_spec. unfold Pos.switch_Eq.
  destruct (Pos.compare_spec m pow2_52) as [Hc|Hc|Hc];
    [reflexivity| |reflexivity].
  apply Pos2Z.pos_lt_pos in Hc. lia.
Qed.

End FloatFacts.

(** ** Fixed-point rendering *)

Section FormatFacts.

Import PyFloat.

Lemma length_append (s1 s2 : string) :
  String.length (s1 ++ s2) = (String.length s1 + String.length s2)%nat.
Proof.
  induction s1 as [|a s1 IH]; cbn; [reflexivity | rewrite IH; reflexivity].
Qed.

(** The fractional part has exactly the requested number of digits. *)
Lemma frac_digits_length (d : nat) : forall n : Z,
  String.length (frac_digits d n) = d.
Proof.
  induction d as [|d IH]; intros n; cbn [frac_digits].
  - reflexivity.
  - rewrite length_append, IH. cbn. lia.
Qed.

(** A quotient in [n - 1/2, n) rounds to [n] when [n] is even: above the
    midpoint by nearness, at the midpoint by the tie rule. *)
Lemma round_half_even_up (num den n : Z) :
  0 < den -> Z.even n = true ->
  (2 * n - 1) * den <= 2 * num < 2 * n * den ->
  round_half_even num den = n.
Proof.
  intros Hden Hev [Hlo Hhi]. unfold round_half_even.
  assert (Hq : num / den = n - 1).
  { symmetry. apply (Z.div_unique_pos num den (n - 1) (num - den * (n - 1)));
      nia. }
  assert (Hr : num mod den = num - den * (n - 1)).
  { rewrite Z.mod_eq by lia. rewrite Hq. reflexivity. }
  rewrite Hq, Hr.
  assert (Hodd : Z.even (n - 1) = false).
  { rewrite Z.even_sub, Hev. reflexivity. }
  rewrite Hodd.
  destruct (Z.compare_spec (2 * (num - den * (n - 1))) den); lia.
Qed.

Lemma append_empty (s : string) : s ++ "" = s.
Proof.
  induction s as [|c s IH]; cbn; [reflexivity | f_equal; exact IH].
Qed.

(** With no fractional digits there is no decimal point. *)
Lemma render_0 (n : Z) : render 0 n = int_digits n.
Proof.
  unfold render. change (10 ^ Z.of_nat 0) with 1.
  rewrite Z.div_1_r. apply append_empty.
Qed.

Lemma of_Z_1024 : of_Z 1024 = S754_finite false pow2_52 (-42).
Proof. vm_compute. reflexivity. Qed.

Lemma of_Z_1024_2 : of_Z (1024 ^ 2) = S754_finite false pow2_52 (-32).
Proof. vm_compute. reflexivity. Qed.

(** Dividing by the two unit constants never raises. *)
Lemma truediv_int_1024 (x : float) :
  truediv_int x 1024 = Ok (div x (S754_finite false pow2_52 (-42))).
Proof.
  unfold truediv_int, of_int. rewrite of_Z_1024. reflexivity.
Qed.

Lemma truediv_int_1024_2 (x : float) :
  truediv_int x (1024 ^ 2) = Ok (div x (S754_finite false pow2_52 (-32))).
Proof.
  unfold truediv_int, of_int. rewrite of_Z_1024_2. reflexivity.
Qed.

(** A well-formed, finite, non-negative number that is not below 1024 is a
    positive normal number of exponent at least [-42]. *)
Lemma not_below_1024 (x : float) :
  valid x = true -> is_finite x = true -> leb zero x = true ->
  lt_int x 1024 = false ->
  exists m e, x = S754_finite false m e /\
              Zpos (digits2_pos m) = 53 /\ -42 <= e <= 971.
Proof.
  intros Hv Hf Hnn Hlt. unfold lt_int in Hlt. rewrite of_Z_1024 in Hlt.
  destruct x as [s|s| |s m e]; try discriminate.
  destruct s; [discriminate|].
  exists m, e. split; [reflexivity|].
  destruct (valid_finite false m e Hv) as (Hhi & Hlo & _ & Hn).
  assert (He : -42 <= e).
  { unfold ltb, SFltb, SFcompare in Hlt.
    destruct (Z.compare_spec e (-42)); try lia; discriminate. }
  split; [apply Hn; lia | lia].
Qed.

End FormatFacts.

(** ** [_format_bytes]: the threshold and precision table *)

Section FormatBytes.

Import PyFloat.

Lemma format_bytes_kb (m : positive) (e : Z) :
  Zpos (digits2_pos m) = 53 -> -42 <= e < -32 ->
  _format_bytes (S754_finite false m e) =
  Ok (format_fixed 1 (S754_finite false m (e - 10)) ++ " KB/s").
Proof.
  intros Hd He. unfold _format_bytes, lt_int.
  rewrite of_Z_1024, of_Z_1024_2, !ltb_pow2 by assumption.
  destruct (Z.ltb_spec e (-42)); [lia|].
  destruct (Z.ltb_spec e (-32)); [|lia].
  rewrite truediv_int_1024. cbn [rbind].
  change (-42) with (10 - 52).
  rewrite (div_pow2 false m e 10 Hd) by lia.
  reflexivity.
Qed.

Lemma format_bytes_mb (m : positive) (e : Z) :
  Zpos (digits2_pos m) = 53 -> -32 <= e <= 971 ->
  _format_bytes (S754_finite false m e) =
  Ok (format_fixed 2 (S754_finite false m (e - 20)) ++ " MB/s").
Proof.
  intros Hd He. unfold _format_bytes, lt_int.
  rewrite of_Z_1024, of_Z_1024_2, !ltb_pow2 by assumption.
  destruct (Z.ltb_spec e (-42)); [lia|].
  destruct (Z.ltb_spec e (-32)); [lia|].
  rewrite truediv_int_1024_2. cbn [rbind].
  change (-32) with (20 - 52).
  rewrite (div_pow2 false m e 20 Hd) by lia.
  reflexivity.
Qed.

(** Between [f] and the next power-of-two constant there is one exponent. *)
Lemma between (c : positive) (k : Z) (x : float) :
  -1074 < k ->
  valid x = true ->
  leb (S754_finite false c k) x = true ->
  ltb x (S754_finite false pow2_52 (k + 1)) = true ->
  exists m, x = S754_finite false m k /\
            Zpos (digits2_pos m) = 53 /\ Zpos c <= Zpos m < 2 ^ 53.
Proof.
  intros Hk Hv Hle Hlt.
  destruct x as [s|s| |s m e]; try discriminate.
  - destruct s; discriminate.
  - destruct s; [discriminate|].
    destruct (valid_finite false m e Hv) as (_ & _ & _ & Hn).
    assert (He : k <= e).
    { unfold leb, SFleb, SFcompare in Hle.
      destruct (Z.compare_spec k e); try lia; discriminate. }
    assert (Hd : Zpos (digits2_pos m) = 53) by (apply Hn; lia).
    rewrite (ltb_pow2 m e (k + 1) Hd) in Hlt.
    apply Z.ltb_lt in Hlt.
    assert (e = k) by lia. subst e.
    exists m. split; [reflexivity|]. split; [exact Hd|].
    split; [|apply normal_mantissa; exact Hd].
    unfold leb, SFleb, SFcompare in Hle.
    rewrite Z.compare_refl, Pos.compare_cont_spec in Hle.
    unfold Pos.switch_Eq in Hle.
    destruct (Pos.compare_spec c m) as [Hc|Hc|Hc]; try discriminate.
    + subst. lia.
    + apply Pos2Z.pos_lt_pos in Hc. lia.
Qed.

End FormatBytes.


(** * The claims *)

(** C6, as the code has it.  For every finite, non-negative (well-formed)
    input [x], [_format_bytes] returns: below 1024, [x] rounded to an
    integer with no decimal point and unit B/s; else below 1024^2, [x/1024]
    (the quotient is exact: same mantissa, exponent lowered by 10) with
    exactly one decimal place and unit KB/s; otherwise [x/1024^2] (exact
    likewise) with exactly two decimal places and unit MB/s.  From 1024 on
    the figure is a decimal numeral [render d n], and the fractional part
    printed for [d] places always has [d] digits.  In particular 0, 1023,
    1024, 1536, 1048576 and 2621440 give "0 B/s", "1023 B/s", "1.0 KB/s",
    "1.5 KB/s", "1.00 MB/s" and "2.50 MB/s". *)
Theorem format_bytes_table (x : PyFloat.float) :
  PyFloat.valid x = true ->
  PyFloat.is_finite x = true ->
  PyFloat.leb PyFloat.zero x = true ->
  _format_bytes x =
    Ok (if PyFloat.lt_int x 1024 then
          PyFloat.format_fixed 0 x ++ " B/s"
        else if PyFloat.lt_int x (1024 ^ 2) then
          PyFloat.format_fixed 1 (PyFloat.ldexp_exact x (-10)) ++ " KB/s"
        else
          PyFloat.format_fixed 2 (PyFloat.ldexp_exact x (-20)) ++ " MB/s") /\
  (PyFloat.lt_int x 1024 = false ->
   exists n : Z,
     _format_bytes x =
       Ok (if PyFloat.lt_int x (1024 ^ 2)
           then PyFloat.render 1 n ++ " KB/s"
           else PyFloat.render 2 n ++ " MB/s")) /\
  (forall (d : nat) (n : Z),
      PyFloat.render (S d) n =
      PyFloat.int_digits (n / 10 ^ Z.of_nat (S d)) ++ "." ++
      PyFloat.frac_digits (S d) n /\
      String.length (PyFloat.frac_digits (S d) n) = S d) /\
  (forall n : Z, PyFloat.render 0 n = PyFloat.int_digits n) /\
  _format_bytes (PyFloat.of_Z 0) = Ok "0 B/s" /\
  _format_bytes (PyFloat.of_Z 1023) = Ok "1023 B/s" /\
  _format_bytes (PyFloat.of_Z 1024) = Ok "1.0 KB/s" /\
  _format_bytes (PyFloat.of_Z 1536) = Ok "1.5 KB/s" /\
  _format_bytes (PyFloat.of_Z 1048576) = Ok "1.00 MB/s" /\
  _format_bytes (PyFloat.of_Z 2621440) = Ok "2.50 MB/s".
Proof.
  intros Hv Hf Hnn. split; [|split; [|split; [|split]]].
  - destruct (PyFloat.lt_int x 1024) eqn:E1.
    + unfold _format_bytes. rewrite E1. reflexivity.
    + destruct (not_below_1024 x Hv Hf Hnn E1) as (m & e & -> & Hd & He).
      unfold PyFloat.lt_int. rewrite of_Z_1024_2, (ltb_pow2 m e (-32) Hd).
      destruct (Z.ltb_spec e (-32)).
      * rewrite (format_bytes_kb m e Hd) by lia. reflexivity.
      * rewrite (format_bytes_mb m e Hd) by lia. reflexivity.
  - intros E1.
    destruct (not_below_1024 x Hv Hf Hnn E1) as (m & e & -> & Hd & He).
    unfold PyFloat.lt_int. rewrite of_Z_1024_2, (ltb_pow2 m e (-32) Hd).
    destruct (Z.ltb_spec e (-32)).
    + exists (PyFloat.scaled 1 m (e - 10)).
      rewrite (format_bytes_kb m e Hd) by lia. reflexivity.
    + exists (PyFloat.scaled 2 m (e - 20)).
      rewrite (format_bytes_mb m e Hd) by lia. reflexivity.
  - intros d n. split; [reflexivity | apply frac_digits_length].
  - exact render_0.
  - repeat split; vm_compute; reflexivity.
Qed.

(** A run of the table on 1536.0, in the KB/s row. *)
Lemma format_bytes_table_witness :
  PyFloat.valid (PyFloat.of_Z 1536) = true /\
  PyFloat.is_finite (PyFloat.of_Z 1536) = true /\
  PyFloat.leb PyFloat.zero (PyFloat.of_Z 1536) = true /\
  _format_bytes (PyFloat.of_Z 1536) = Ok "1.5 KB/s".
Proof.
  split; [reflexivity|]. split; [reflexivity|]. split; [reflexivity|].
  exact (proj1 (proj2 (proj2 (proj2 (proj2 (proj2 (proj2 (proj2
    (format_bytes_table (PyFloat.of_Z 1536) eq_refl eq_refl eq_refl))))))))).
Defined.

(** C6 as stated fails: plus infinity is a non-negative input that is not
    below 1024^2, and [_format_bytes] prints it as "inf MB/s", which is no
    numeral with two decimal places. *)
Lemma infinite_rate_has_no_decimal_places :
  ~ (forall x : PyFloat.float,
        PyFloat.valid x = true ->
        PyFloat.leb PyFloat.zero x = true ->
        PyFloat.lt_int x 1024 = false ->
        exists n : Z,
          _format_bytes x =
            Ok (if PyFloat.lt_int x (1024 ^ 2)
                then PyFloat.render 1 n ++ " KB/s"
                else PyFloat.render 2 n ++ " MB/s")).
Proof.
  intros H.
  destruct (H (S754_infinity false) eq_refl eq_refl eq_refl) as [n Hn].
  assert (E : _format_bytes (S754_infinity false) = Ok "inf MB/s")
    by (vm_compute; reflexivity).
  assert (L : PyFloat.lt_int (S754_infinity false) (1024 ^ 2) = false)
    by (vm_compute; reflexivity).
  rewrite E, L in Hn. apply Ok_inj in Hn.
  change (PyFloat.render 2 n)
    with (PyFloat.int_digits (n / 10 ^ Z.of_nat 2) ++ "." ++
          PyFloat.frac_digits 2 n) in Hn.
  pose proof (frac_digits_length 2 n) as HF.
  remember (PyFloat.frac_digits 2 n) as F eqn:EF. clear EF.
  remember (PyFloat.int_digits (n / 10 ^ Z.of_nat 2)) as A eqn:EA. clear EA.
  pose proof (f_equal String.length Hn) as HL.
  rewrite !length_append, HF in HL.
  destruct A as [|a A]; cbn in HL; [|lia].
  cbn in Hn. discriminate Hn.
Qed.

(** What [_format_bytes] prints for plus infinity. *)
Example format_bytes_infinity :
  _format_bytes (S754_infinity false) = Ok "inf MB/s".
Proof. vm_compute. reflexivity. Qed.

(** C9.  [_format_bytes] rounds, it does not truncate: every (well-formed)
    [x] with 1023.5 <= x < 1024 is rendered "1024 B/s" although it takes the
    B/s row, and every [y] below 1024^2 whose quotient by 1024 reaches
    1023.95, that is every [y] with 1048524.8 <= y < 1024^2, is rendered
    "1024.0 KB/s". *)
Theorem format_bytes_rounds_up_to_threshold (x y : PyFloat.float) :
  PyFloat.valid x = true ->
  PyFloat.leb PyFloat.f1023_5 x = true ->
  PyFloat.lt_int x 1024 = true ->
  PyFloat.valid y = true ->
  PyFloat.leb PyFloat.f1048524_8 y = true ->
  PyFloat.lt_int y (1024 ^ 2) = true ->
  _format_bytes x = Ok "1024 B/s" /\
  _format_bytes y = Ok "1024.0 KB/s".
Proof.
  intros Hvx Hlx Hux Hvy Hly Huy. split.
  - unfold PyFloat.lt_int in Hux. rewrite of_Z_1024 in Hux.
    destruct (between _ (-43) x ltac:(lia) Hvx Hlx Hux)
      as (m & -> & Hd & Hlo & Hhi).
    unfold _format_bytes, PyFloat.lt_int.
    rewrite of_Z_1024, (ltb_pow2 m (-43) (-42) Hd).
    change (-43 <? -42)%Z with true. cbv iota.
    unfold PyFloat.format_fixed, PyFloat.scaled.
    change (10 ^ Z.of_nat 0) with 1. change (2 ^ 43) with 8796093022208.
    rewrite (round_half_even_up _ _ 1024).
    + vm_compute. reflexivity.
    + lia.
    + reflexivity.
    + change (2 ^ 53) with 9007199254740992 in Hhi. lia.
  - unfold PyFloat.lt_int in Huy. rewrite of_Z_1024_2 in Huy.
    destruct (between _ (-33) y ltac:(lia) Hvy Hly Huy)
      as (m & -> & Hd & Hlo & Hhi).
    rewrite (format_bytes_kb m (-33) Hd) by lia.
    change (-33 - 10) with (-43).
    unfold PyFloat.format_fixed, PyFloat.scaled.
    change (10 ^ Z.of_nat 1) with 10. change (2 ^ 43) with 8796093022208.
    rewrite (round_half_even_up _ _ 10240).
    + vm_compute. reflexivity.
    + lia.
    + reflexivity.
    + change (2 ^ 53) with 9007199254740992 in Hhi. lia.
Qed.

Lemma format_bytes_rounds_up_to_threshold_witness :
  _format_bytes PyFloat.f1023_5 = Ok "1024 B/s" /\
  _format_bytes PyFloat.f1048524_8 = Ok "1024.0 KB/s".
Proof.
  apply (format_bytes_rounds_up_to_threshold PyFloat.f1023_5 PyFloat.f1048524_8);
    reflexivity.
Defined.

(** C10.  [_format_bytes] returns on every float, and every [x] below 1024,
    every negative one included, takes the B/s row: the result is [x] rounded
    to an integer (a minus sign, then the digits, for a negative [x]) followed
    by " B/s"; -2048.0 gives "-2048 B/s". *)
Theorem format_bytes_total_and_negative (x : PyFloat.float) :
  PyFloat.lt_int x 1024 = true ->
  _format_bytes x = Ok (PyFloat.format_fixed 0 x ++ " B/s") /\
  (forall y : PyFloat.float, exists s : string, _format_bytes y = Ok s) /\
  (forall y : PyFloat.float,
      PyFloat.ltb y PyFloat.zero = true -> PyFloat.lt_int y 1024 = true) /\
  (forall (m : positive) (e : Z),
      PyFloat.format_fixed 0 (S754_finite true m e) =
      "-" ++ PyFloat.int_digits (PyFloat.scaled 0 m e)) /\
  _format_bytes (PyFloat.of_Z (-2048)) = Ok "-2048 B/s".
Proof.
  intros Hlt. split; [|split; [|split; [|split]]].
  - unfold _format_bytes. rewrite Hlt. reflexivity.
  - intros y. unfold _format_bytes.
    rewrite truediv_int_1024, truediv_int_1024_2.
    destruct (PyFloat.lt_int y 1024); [eexists; reflexivity|].
    destruct (PyFloat.lt_int y (1024 ^ 2)); eexists; reflexivity.
  - intros y Hy. unfold PyFloat.lt_int. rewrite of_Z_1024.
    destruct y as [s|s| |s m e]; try discriminate;
      destruct s; try discriminate; reflexivity.
  - intros m e. unfold PyFloat.format_fixed. rewrite render_0. reflexivity.
  - vm_compute. reflexivity.
Qed.

Lemma format_bytes_total_and_negative_witness :
  PyFloat.lt_int (PyFloat.of_Z (-2048)) 1024 = true /\
  _format_bytes (PyFloat.of_Z (-2048)) =
  Ok (PyFloat.format_fixed 0 (PyFloat.of_Z (-2048)) ++ " B/s").
Proof.
  split; [reflexivity|].
  exact (proj1 (format_bytes_total_and_negative (PyFloat.of_Z (-2048)) eq_refl)).
Defined.



(** C8.  A returning collection puts the CPU and memory percentages in the
    snapshot exactly as the host reported them, whatever their values. *)
Theorem collect_reports_percentages
    (h : Host) (st st' : App) (m : Metrics) (c v : PyFloat.float) :
  cpu_percent h = Some c ->
  virtual_memory_percent h = Some v ->
  _collect_metrics h st = (Ok m, st') ->
  cpu m = c /\ mem m = v.
Proof.
  intros Hc Hv Hr.
  destruct (collect_returns h st st' m Hr)
    as (c0 & v0 & ps & cd & cn & Hc0 & Hv0 & _ & _ & _ & _ & Hcpu & Hmem & _).
  rewrite Hc in Hc0. rewrite Hv in Hv0.
  injection Hc0 as <-. injection Hv0 as <-. auto.
Qed.

(** The host reports 250.0 for the CPU and -5.0 for the memory. *)
Lemma collect_reports_percentages_witness :
  exists (m : Metrics) (st' : App),
    _collect_metrics
      (Sample.host 101 (Sample.secs 250) (Sample.secs (-5)) 1500 2000 3000 4000)
      (Sample.app []) = (Ok m, st') /\
    cpu m = Sample.secs 250 /\ mem m = Sample.secs (-5).
Proof.
  eexists. eexists. split.
  - lazy. reflexivity.
  - eapply (collect_reports_percentages
             (Sample.host 101 (Sample.secs 250) (Sample.secs (-5))
                1500 2000 3000 4000)
             (Sample.app []) _ _ (Sample.secs 250) (Sample.secs (-5))
             eq_refl eq_refl).
    lazy. reflexivity.
Defined.

(** C4, as the code has it.  When a host read raises, the rolling history
    and the stored network counters are as before; the stored instant has
    already been overwritten with the current one; the stored disk counters
    are as before unless it is the network read that failed, after the disk
    counters were replaced by the current reading. *)
Theorem failed_read_leaves_history
    (h : Host) (st st' : App) (s : subsystem) :
  _collect_metrics h st = (Raise (HostError s), st') ->
  cpu_history st' = cpu_history st /\
  prev_net st' = prev_net st /\
  prev_time st' = time_time h /\
  (s <> Network -> prev_disk st' = prev_disk st) /\
  (s = Network -> Some (prev_disk st') = disk_io_counters h).
Proof.
  intros H. apply collect_raises in H.
  destruct H as (_ & _ & _ & Hh & Hn & Ht & Hd).
  repeat split; try assumption.
  - intros Hs.
    destruct Hd as [(s0 & He & _ & Hd)|[[He _]|[He|[He _]]]];
      try discriminate.
    + exact Hd.
    + injection He as ->. contradiction.
  - intros ->.
    destruct Hd as [(s0 & He & Hs & _)|[[_ Hd]|[He|[He _]]]];
      try discriminate.
    + injection He as <-. contradiction.
    + exact Hd.
Qed.

(** The network read fails after the disk read returned 1500 and 2600. *)
Lemma failed_read_leaves_history_witness :
  exists st' : App,
    _collect_metrics (Sample.host_net_fails 101 1500 2600) (Sample.app []) =
    (Raise (HostError Network), st') /\
    cpu_history st' = cpu_history (Sample.app []) /\
    prev_net st' = prev_net (Sample.app []) /\
    prev_time st' = Sample.secs 101 /\
    Some (prev_disk st') =
    Some {| psutil.read_bytes := 1500; psutil.write_bytes := 2600 |}.
Proof.
  eexists. split; [lazy; reflexivity|].
  destruct (failed_read_leaves_history
              (Sample.host_net_fails 101 1500 2600) (Sample.app []) _ Network
              eq_refl) as (Hh & Hn & Ht & _ & Hd).
  split; [exact Hh|]. split; [exact Hn|]. split; [exact Ht|].
  exact (Hd eq_refl).
Defined.

(** C4 as stated fails: with the CPU read raising at instant 101, the stored
    instant moves from 100 to 101; with the network read raising, the stored
    disk counters move as well. *)
Lemma failed_read_overwrites_state :
  ~ (forall (h : Host) (st st' : App) (s : subsystem),
        _collect_metrics h st = (Raise (HostError s), st') ->
        prev_disk st' = prev_disk st /\ prev_net st' = prev_net st /\
        prev_time st' = prev_time st /\ cpu_history st' = cpu_history st).
Proof.
  intros H.
  specialize (H (Sample.host_cpu_fails 101 1500 2600 3000 4000)
                (Sample.app []) _ Cpu eq_refl).
  destruct H as (_ & _ & Ht & _).
  vm_compute in Ht. discriminate Ht.
Qed.


(** A successful construction read the two baselines and ran a first update
    that ended normally. *)
Lemma init_returns (matplotlib : bool) (h0 h1 : Host) (a : App) :
  __init__ matplotlib h0 h1 = Ok a ->
  exists (d : psutil.sdiskio) (n : psutil.snetio),
    disk_io_counters h0 = Some d /\ net_io_counters h0 = Some n /\
    _schedule_update h1 (init_state matplotlib d n (time_time h0)) = (Ok tt, a).
Proof.
  unfold __init__, rbind, outcome.
  destruct (disk_io_counters h0) as [d|]; [|discriminate].
  destruct (net_io_counters h0) as [n|]; [|discriminate].
  destruct (_schedule_update h1 (init_state matplotlib d n (time_time h0)))
    as [[[]|e] a'] eqn:E; [|discriminate].
  intros H. apply Ok_inj in H. subst a'.
  exists d, n. split; [reflexivity|]. split; [reflexivity|]. exact E.
Qed.





(** After that tick the loop has nothing left to fire. *)
Example print_failure_second_tick :
  mainloop
    [Sample.host_console_fails 101 1500 2600 3000 4000;
     Sample.host 102 (Sample.secs 10) (Sample.secs 40) 1500 2600 3000 4000]
    (Sample.app [(UPDATE_INTERVAL_MS, Schedule_update)]) = None.
Proof. vm_compute. reflexivity. Qed.

(** The exceptions of that run, as printed. *)
Example five_ticks_console :
  option_map stdout
    (mainloop
      [Sample.host_cpu_fails 101 1500 2600 3000 4000;
       Sample.host_draw_fails 102 1500 2600 3000 4000;
       Sample.host 103 (Sample.secs 10) (Sample.secs 40) 1500 2600 3000 4000;
       Sample.host_draw_fails 104 1500 2600 3000 4000;
       Sample.host 105 (Sample.secs 10) (Sample.secs 40) 1500 2600 3000 4000]
      (Sample.app [(UPDATE_INTERVAL_MS, Schedule_update)])) =
  Some [HostError Cpu; StrftimeError; StrftimeError].
Proof. vm_compute. reflexivity. Qed.

(** ** Rates *)

Lemma of_int_finite (a : Z) (f : PyFloat.float) :
  0 <= a -> PyFloat.of_int a = Ok f ->
  PyFloat.signed false f /\ PyFloat.is_finite f = true.
Proof.
  intros Ha. unfold PyFloat.of_int.
  pose proof (of_Z_signed a Ha) as Hs.
  destruct (PyFloat.of_Z a) as [s|s| |s m e]; cbn in Hs; try contradiction;
    intros H; inversion H; subst; split; reflexivity.
Qed.

(** A non-negative count over a positive duration is a non-negative rate. *)
Lemma int_truediv_nonneg (a : Z) (b r : PyFloat.float) :
  0 <= a -> PyFloat.ltb PyFloat.zero b = true ->
  PyFloat.int_truediv a b = Ok r ->
  PyFloat.leb PyFloat.zero r = true.
Proof.
  intros Ha Hb. unfold PyFloat.int_truediv, rbind.
  destruct (PyFloat.of_int a) as [fa|e] eqn:E; [|discriminate].
  destruct (of_int_finite a fa Ha E) as [Hs Hf].
  destruct (PyFloat.is_zero b); [discriminate|].
  intros H. injection H as <-.
  apply signed_false_nonneg, div_signed; assumption.
Qed.

Lemma byte_delta_nonneg (cur prev : Z) : 0 <= byte_delta cur prev.
Proof. unfold byte_delta. lia. Qed.

(** With every read returning, a non-zero [dt] and counters that fit a
    float, the collection returns a snapshot. *)
Lemma collect_succeeds
    (h : Host) (st : App) (c0 v : PyFloat.float) (ps : list Z)
    (cd : psutil.sdiskio) (cn : psutil.snetio) :
  cpu_percent h = Some c0 ->
  virtual_memory_percent h = Some v ->
  pids h = Some ps ->
  disk_io_counters h = Some cd ->
  net_io_counters h = Some cn ->
  PyFloat.is_zero (elapsed (time_time h) st) = false ->
  (forall c : counter,
      exists f, PyFloat.of_int (byte_delta (reading c cd cn) (previous c st)) = Ok f) ->
  exists (m : Metrics) (st' : App), _collect_metrics h st = (Ok m, st').
Proof.
  intros Hc Hv Hp Hd Hn Hz Hfit.
  assert (Hdiv : forall c, exists r,
    PyFloat.int_truediv (byte_delta (reading c cd cn) (previous c st))
      (elapsed (time_time h) st) = Ok r).
  { intros c. destruct (Hfit c) as [f Hf].
    unfold PyFloat.int_truediv, rbind. rewrite Hf, Hz. eexists. reflexivity. }
  destruct (Hdiv DiskRead) as [r1 H1]. destruct (Hdiv DiskWrite) as [r2 H2].
  destruct (Hdiv NetSent) as [r3 H3]. destruct (Hdiv NetRecv) as [r4 H4].
  cbv [reading previous] in H1, H2, H3, H4.
  unfold _collect_metrics. run_monad.
  rewrite Hc, Hv, Hp, Hd. cbn.
  rewrite H1, H2, Hn. cbn. rewrite H3, H4.
  eexists. eexists. reflexivity.
Qed.

(** C2.  When a cumulative counter reads strictly below the stored value,
    the byte delta computed for it is exactly 0: every returning collection
    reports 0 / dt for it, and the collection does return, with that rate,
    when the five reads return, [dt] is not zero and the deltas fit a
    float. *)
Theorem counter_reset_clamps_delta
    (c : counter) (h : Host) (st : App) (c0 v : PyFloat.float) (ps : list Z)
    (cd : psutil.sdiskio) (cn : psutil.snetio) :
  cpu_percent h = Some c0 ->
  virtual_memory_percent h = Some v ->
  pids h = Some ps ->
  disk_io_counters h = Some cd ->
  net_io_counters h = Some cn ->
  PyFloat.is_zero (elapsed (time_time h) st) = false ->
  (forall c' : counter,
      exists f,
        PyFloat.of_int (byte_delta (reading c' cd cn) (previous c' st)) = Ok f) ->
  reading c cd cn < previous c st ->
  byte_delta (reading c cd cn) (previous c st) = 0 /\
  (exists (m : Metrics) (st' : App),
      _collect_metrics h st = (Ok m, st') /\
      rate c m = PyFloat.div PyFloat.zero (elapsed (time_time h) st)) /\
  (forall (m : Metrics) (st' : App),
      _collect_metrics h st = (Ok m, st') ->
      PyFloat.int_truediv 0 (elapsed (time_time h) st) = Ok (rate c m)).
Proof.
  intros Hc Hv Hp Hd Hn Hz Hfit Hlt.
  assert (H0 : byte_delta (reading c cd cn) (previous c st) = 0)
    by (unfold byte_delta; lia).
  assert (Hall : forall (m : Metrics) (st' : App),
             _collect_metrics h st = (Ok m, st') ->
             PyFloat.int_truediv 0 (elapsed (time_time h) st) = Ok (rate c m)).
  { intros m st' Hr.
    destruct (collect_returns h st st' m Hr)
      as (c0' & v' & ps' & cd' & cn' & _ & _ & _ & Hd' & Hn' & Hrate & _).
    rewrite Hd in Hd'. rewrite Hn in Hn'.
    apply Some_inj in Hd'. apply Some_inj in Hn'. subst cd' cn'.
    rewrite <- H0. apply Hrate. }
  split; [exact H0|]. split; [|exact Hall].
  destruct (collect_succeeds h st c0 v ps cd cn Hc Hv Hp Hd Hn Hz Hfit)
    as (m & st' & E).
  exists m, st'. split; [exact E|].
  pose proof (Hall m st' E) as Hr.
  unfold PyFloat.int_truediv, rbind in Hr.
  change (PyFloat.of_int 0) with (@Ok PyFloat.float PyFloat.zero) in Hr.
  cbv beta iota in Hr. rewrite Hz in Hr. apply Ok_inj in Hr.
  symmetry; exact Hr.
Qed.

(** The disk read counter falls from 1000 to 400 over one second: the
    collection returns and the read rate is 0 over that second. *)
Lemma counter_reset_clamps_delta_witness :
  byte_delta 400 1000 = 0 /\
  exists (m : Metrics) (st' : App),
    _collect_metrics
      (Sample.host 101 (Sample.secs 10) (Sample.secs 40) 400 2000 3000 4000)
      (Sample.app []) = (Ok m, st') /\
    rate DiskRead m =
      PyFloat.div PyFloat.zero (elapsed (Sample.secs 101) (Sample.app [])).
Proof.
  assert (Hfit : forall c' : counter,
             exists f,
               PyFloat.of_int
                 (byte_delta
                    (reading c'
                       {| psutil.read_bytes := 400; psutil.write_bytes := 2000 |}
                       {| psutil.bytes_sent := 3000; psutil.bytes_recv := 4000 |})
                    (previous c' (Sample.app []))) = Ok f)
    by (intros [ | | | ]; eexists; vm_compute; reflexivity).
  destruct (counter_reset_clamps_delta DiskRead
              (Sample.host 101 (Sample.secs 10) (Sample.secs 40) 400 2000 3000 4000)
              (Sample.app []) (Sample.secs 10) (Sample.secs 40) [1; 2; 3]
              {| psutil.read_bytes := 400; psutil.write_bytes := 2000 |}
              {| psutil.bytes_sent := 3000; psutil.bytes_recv := 4000 |}
              eq_refl eq_refl eq_refl eq_refl eq_refl eq_refl Hfit eq_refl)
    as (H0 & Hrun & _).
  split; [exact H0 | exact Hrun].
Defined.

(** C1, as the code has it.  In a returning collection in which every
    counter reads at least the stored value, each rate of the snapshot is
    exactly (current - previous) / dt, whatever the sign of [dt]; and
    whenever the elapsed time [dt] is positive, all four rates are
    non-negative. *)
Theorem monotone_counters_give_exact_rates
    (h : Host) (st st' : App) (m : Metrics)
    (cd : psutil.sdiskio) (cn : psutil.snetio) :
  disk_io_counters h = Some cd ->
  net_io_counters h = Some cn ->
  (forall c : counter, previous c st <= reading c cd cn) ->
  _collect_metrics h st = (Ok m, st') ->
  forall c : counter,
    PyFloat.int_truediv (reading c cd cn - previous c st)
      (elapsed (time_time h) st) = Ok (rate c m) /\
    (PyFloat.ltb PyFloat.zero (elapsed (time_time h) st) = true ->
     PyFloat.leb PyFloat.zero (rate c m) = true).
Proof.
  intros Hd Hn Hmono Hc c.
  destruct (collect_returns h st st' m Hc)
    as (c0 & v & ps & cd' & cn' & _ & _ & _ & Hd' & Hn' & Hr & _).
  rewrite Hd in Hd'. rewrite Hn in Hn'.
  apply Some_inj in Hd'. apply Some_inj in Hn'. subst cd' cn'.
  specialize (Hr c).
  split.
  - replace (reading c cd cn - previous c st)
      with (byte_delta (reading c cd cn) (previous c st)); [exact Hr|].
    unfold byte_delta. specialize (Hmono c). lia.
  - intros Hdt.
    exact (int_truediv_nonneg _ _ _ (byte_delta_nonneg _ _) Hdt Hr).
Qed.

(** One second after instant 100 the four counters have grown by 1024, 0,
    512 and 2048 bytes: the collection returns, and each rate is the growth
    over 1.0 and is non-negative. *)
Lemma monotone_counters_give_exact_rates_witness :
  exists (m : Metrics) (st' : App),
    _collect_metrics
      (Sample.host 101 (Sample.secs 10) (Sample.secs 40) 2024 2000 3512 6048)
      (Sample.app []) = (Ok m, st') /\
    forall c : counter,
      PyFloat.int_truediv
        (reading c {| psutil.read_bytes := 2024; psutil.write_bytes := 2000 |}
                   {| psutil.bytes_sent := 3512; psutil.bytes_recv := 6048 |} -
         previous c (Sample.app []))
        (elapsed (Sample.secs 101) (Sample.app [])) = Ok (rate c m) /\
      PyFloat.leb PyFloat.zero (rate c m) = true.
Proof.
  destruct (_collect_metrics
              (Sample.host 101 (Sample.secs 10) (Sample.secs 40) 2024 2000 3512 6048)
              (Sample.app [])) as [[m|e] st'] eqn:E;
    [|exfalso; vm_compute in E; discriminate E].
  exists m, st'. split; [reflexivity|].
  intros c.
  assert (Hmono : forall c0 : counter,
             previous c0 (Sample.app []) <=
             reading c0 {| psutil.read_bytes := 2024; psutil.write_bytes := 2000 |}
                        {| psutil.bytes_sent := 3512; psutil.bytes_recv := 6048 |})
    by (intros [ | | | ]; cbn; lia).
  destruct (monotone_counters_give_exact_rates
              (Sample.host 101 (Sample.secs 10) (Sample.secs 40) 2024 2000 3512 6048)
              (Sample.app []) st' m _ _ eq_refl eq_refl Hmono E c) as [Hex Hnn].
  split; [exact Hex | exact (Hnn eq_refl)].
Defined.

(** C1 as stated fails: the clock read 100 at the previous sample and reads
    99 now, the disk read counter grew from 1000 to 2024; the collection
    returns a read rate of -1024.0. *)
Lemma backward_clock_gives_negative_rate :
  ~ (forall (h : Host) (st st' : App) (m : Metrics)
            (cd : psutil.sdiskio) (cn : psutil.snetio),
        disk_io_counters h = Some cd ->
        net_io_counters h = Some cn ->
        (forall c : counter, previous c st <= reading c cd cn) ->
        _collect_metrics h st = (Ok m, st') ->
        forall c : counter,
          PyFloat.int_truediv (reading c cd cn - previous c st)
            (elapsed (time_time h) st) = Ok (rate c m) /\
          PyFloat.leb PyFloat.zero (rate c m) = true).
Proof.
  intros H.
  pose (h := Sample.host 99 (Sample.secs 10) (Sample.secs 40) 2024 2000 3000 4000).
  assert (E : exists m st',
             _collect_metrics h (Sample.app []) = (Ok m, st') /\
             read_bps m = PyFloat.of_Z (-1024)).
  { eexists. eexists. split; lazy; reflexivity. }
  destruct E as (m & st' & E & Hrate).
  assert (Hmono : forall c : counter,
             previous c (Sample.app []) <=
             reading c {| psutil.read_bytes := 2024; psutil.write_bytes := 2000 |}
                       {| psutil.bytes_sent := 3000; psutil.bytes_recv := 4000 |}).
  { intros [ | | | ]; cbn; lia. }
  destruct (H h (Sample.app []) st' m _ _ eq_refl eq_refl Hmono E DiskRead)
    as [_ Hnn].
  cbn [rate] in Hnn. rewrite Hrate in Hnn.
  vm_compute in Hnn. discriminate Hnn.
Qed.

(** C3, as the code has it.  [dt] is 1.0 when the stored instant is zero
    (falsy) and [now - prev_time] otherwise, with no substitution when that
    difference is zero or negative; the rates of a returning collection are
    the byte deltas divided by that [dt], which is then not zero; the
    collection raises no division by zero when [dt] is not zero, and returns
    no snapshot when it is. *)
Theorem collect_divides_by_elapsed (h : Host) (st : App) :
  (PyFloat.truthy (prev_time st) = false ->
   elapsed (time_time h) st = PyFloat.one) /\
  (PyFloat.truthy (prev_time st) = true ->
   elapsed (time_time h) st = PyFloat.sub (time_time h) (prev_time st)) /\
  (forall (m : Metrics) (st' : App),
      _collect_metrics h st = (Ok m, st') ->
      exists (cd : psutil.sdiskio) (cn : psutil.snetio),
        disk_io_counters h = Some cd /\
        net_io_counters h = Some cn /\
        forall c : counter,
          PyFloat.int_truediv (byte_delta (reading c cd cn) (previous c st))
            (if PyFloat.truthy (prev_time st)
             then PyFloat.sub (time_time h) (prev_time st)
             else PyFloat.one) = Ok (rate c m)) /\
  (PyFloat.is_zero (elapsed (time_time h) st) = false ->
   fst (_collect_metrics h st) <> Raise ZeroDivisionError) /\
  (PyFloat.is_zero (elapsed (time_time h) st) = true ->
   forall (m : Metrics) (st' : App), _collect_metrics h st <> (Ok m, st')).
Proof.
  split; [|split; [|split; [|split]]].
  - intros Ht. unfold elapsed. rewrite Ht. reflexivity.
  - intros Ht. unfold elapsed. rewrite Ht. reflexivity.
  - intros m st' E.
    destruct (collect_returns h st st' m E)
      as (c0 & v & ps & cd & cn & _ & _ & _ & Hd & Hn & Hr & _).
    exists cd, cn. split; [exact Hd|]. split; [exact Hn|]. exact Hr.
  - intros Hz.
    destruct (_collect_metrics h st) as [[m|e] st'] eqn:E; cbn [fst];
      [discriminate|].
    apply collect_raises in E.
    destruct E as (_ & _ & _ & _ & _ & _ & Hd).
    destruct Hd as [(s0 & -> & _)|[[-> _]|[->|[_ Hz']]]]; try discriminate.
    rewrite Hz in Hz'. discriminate Hz'.
  - intros Hz m st' E.
    destruct (collect_returns h st st' m E)
      as (c0 & v & ps & cd & cn & _ & _ & _ & _ & _ & Hr & _).
    specialize (Hr DiskRead).
    unfold PyFloat.int_truediv, rbind in Hr. rewrite Hz in Hr.
    destruct (PyFloat.of_int _); discriminate Hr.
Qed.

(** One second after instant 100: [dt] is 101 - 100, the collection returns,
    and its read rate is the growth of 500 bytes over that [dt]. *)
Lemma collect_divides_by_elapsed_witness :
  elapsed (Sample.secs 101) (Sample.app []) =
    PyFloat.sub (Sample.secs 101) (prev_time (Sample.app [])) /\
  fst (_collect_metrics
         (Sample.host 101 (Sample.secs 10) (Sample.secs 40) 1500 2600 3000 4000)
         (Sample.app [])) <> Raise ZeroDivisionError /\
  exists (m : Metrics) (st' : App),
    _collect_metrics
      (Sample.host 101 (Sample.secs 10) (Sample.secs 40) 1500 2600 3000 4000)
      (Sample.app []) = (Ok m, st') /\
    PyFloat.int_truediv 500 PyFloat.one = Ok (read_bps m).
Proof.
  destruct (collect_divides_by_elapsed
              (Sample.host 101 (Sample.secs 10) (Sample.secs 40) 1500 2600 3000 4000)
              (Sample.app [])) as (_ & He & Hr & Hn & _).
  split; [exact (He eq_refl)|]. split; [exact (Hn eq_refl)|].
  destruct (_collect_metrics
              (Sample.host 101 (Sample.secs 10) (Sample.secs 40) 1500 2600 3000 4000)
              (Sample.app [])) as [[m|e] st'] eqn:E;
    [|exfalso; vm_compute in E; discriminate E].
  exists m, st'. split; [reflexivity|].
  destruct (Hr m st' eq_refl) as (cd & cn & Hd & _ & Hrate).
  apply Some_inj in Hd. subst cd.
  exact (Hrate DiskRead).
Defined.

(** C3 as stated fails: when the clock still reads the stored instant, [dt]
    is 0.0, not 1.0, and the collection raises a division by zero; when the
    clock has gone back one second, [dt] is -1.0. *)
Lemma same_instant_divides_by_zero :
  ~ (forall (h : Host) (st : App),
        (PyFloat.truthy (prev_time st) = false \/
         PyFloat.leb (PyFloat.sub (time_time h) (prev_time st)) PyFloat.zero = true ->
         elapsed (time_time h) st = PyFloat.one) /\
        fst (_collect_metrics h st) <> Raise ZeroDivisionError).
Proof.
  intros H.
  destruct (H (Sample.host 100 (Sample.secs 10) (Sample.secs 40) 1500 2600 3000 4000)
              (Sample.app [])) as [_ Hn].
  apply Hn. vm_compute. reflexivity.
Qed.

(** The first update, run by the constructor itself, when the clock has not
    advanced since the timestamp taken a few lines earlier: it ends with a
    division by zero on the console. *)
Example first_update_same_instant :
  option_map stdout
    match __init__ false
            (Sample.host 100 (Sample.secs 10) (Sample.secs 40) 1000 2000 3000 4000)
            (Sample.host 100 (Sample.secs 10) (Sample.secs 40) 1500 2600 3000 4000)
    with
    | Ok a => Some a
    | Raise _ => None
    end = Some [ZeroDivisionError].
Proof. vm_compute. reflexivity. Qed.

(** The same step with the clock gone back by one second: [dt] is -1.0. *)
Example elapsed_backward_clock :
  elapsed (Sample.secs 99) (Sample.app []) = PyFloat.of_Z (-1).
Proof. vm_compute. reflexivity. Qed.

(** The end-to-end history scenario: a history of length 3 and the CPU
    readings 10, 20, 15. *)
Example history_three_ticks :
  map Deque.to_list
    [Deque.append (Deque.make (repeat PyFloat.zero 3) 3) (PyFloat.of_Z 10);
     fold_left Deque.append [PyFloat.of_Z 10; PyFloat.of_Z 20]
       (Deque.make (repeat PyFloat.zero 3) 3);
     fold_left Deque.append [PyFloat.of_Z 10; PyFloat.of_Z 20; PyFloat.of_Z 15]
       (Deque.make (repeat PyFloat.zero 3) 3)] =
  [[PyFloat.zero; PyFloat.zero; PyFloat.of_Z 10];
   [PyFloat.zero; PyFloat.of_Z 10; PyFloat.of_Z 20];
   [PyFloat.of_Z 10; PyFloat.of_Z 20; PyFloat.of_Z 15]].
Proof. vm_compute. reflexivity. Qed.


(** * Further properties of the code *)

(** ** Signs of quotients *)

Lemma div_signed_any (sx sy : bool) (x y : PyFloat.float) :
  PyFloat.signed sx x -> PyFloat.is_finite x = true ->
  PyFloat.signed sy y -> PyFloat.is_zero y = false ->
  PyFloat.signed (xorb sx sy) (PyFloat.div x y).
Proof.
  intros Hx Hfx Hy Hzy.
  destruct y as [s2|s2| |s2 my ey]; cbn in Hy, Hzy;
    try contradiction; try discriminate; subst s2;
    destruct x as [s1|s1| |s1 mx ex]; cbn in Hx, Hfx;
    try contradiction; try discriminate; subst s1;
    try reflexivity.
  unfold PyFloat.div, SFdiv.
  pose proof (div_core_nonneg (Zpos mx) ex (Zpos my) ey
                ltac:(lia) ltac:(lia)) as H.
  destruct (SFdiv_core_binary PyFloat.prec PyFloat.emax (Zpos mx) ex (Zpos my) ey)
    as [[mz ez] lz].
  cbn [fst] in H. apply binary_round_aux_signed. exact H.
Qed.

Lemma positive_signed (y : PyFloat.float) :
  PyFloat.ltb PyFloat.zero y = true ->
  PyFloat.signed false y /\ PyFloat.is_zero y = false.
Proof.
  destruct y as [s|s| |s m e]; try discriminate;
    destruct s; try discriminate; split; reflexivity.
Qed.

Lemma negative_signed (y : PyFloat.float) :
  PyFloat.ltb y PyFloat.zero = true ->
  PyFloat.signed true y /\ PyFloat.is_zero y = false.
Proof.
  destruct y as [s|s| |s m e]; try discriminate;
    destruct s; try discriminate; split; reflexivity.
Qed.

Lemma signed_true_nonpos (x : PyFloat.float) :
  PyFloat.signed true x -> PyFloat.leb x PyFloat.zero = true.
Proof.
  destruct x as [s|s| |s m e]; cbn; try contradiction; intros ->; reflexivity.
Qed.

Lemma int_truediv_signed (a : Z) (b r : PyFloat.float) (s : bool) :
  0 <= a -> PyFloat.signed s b ->
  PyFloat.int_truediv a b = Ok r ->
  PyFloat.signed s r.
Proof.
  intros Ha Hb. unfold PyFloat.int_truediv, rbind.
  destruct (PyFloat.of_int a) as [fa|e] eqn:E; [|discriminate].
  destruct (of_int_finite a fa Ha E) as [Hs Hf].
  destruct (PyFloat.is_zero b) eqn:Hz; [discriminate|].
  intros H. apply Ok_inj in H. rewrite <- H.
  exact (div_signed_any false s fa b Hs Hf Hb Hz).
Qed.

(** X1.  Whatever the counters did (growth or reset), the rates of a
    returning collection have the sign of [dt]: all four are non-negative
    when [dt > 0], and all four are non-positive when the clock went back
    ([dt < 0]); none is a NaN in either case. *)
Theorem rates_follow_sign_of_elapsed
    (h : Host) (st st' : App) (m : Metrics) (c : counter) :
  _collect_metrics h st = (Ok m, st') ->
  (PyFloat.ltb PyFloat.zero (elapsed (time_time h) st) = true ->
   PyFloat.leb PyFloat.zero (rate c m) = true /\
   PyFloat.signed false (rate c m)) /\
  (PyFloat.ltb (elapsed (time_time h) st) PyFloat.zero = true ->
   PyFloat.leb (rate c m) PyFloat.zero = true /\
   PyFloat.signed true (rate c m)).
Proof.
  intros Hc.
  destruct (collect_returns h st st' m Hc)
    as (c0 & v & ps & cd & cn & _ & _ & _ & _ & _ & Hr & _).
  specialize (Hr c). split; intros Hdt.
  - destruct (positive_signed _ Hdt) as [Hs _].
    pose proof (int_truediv_signed _ _ _ false (byte_delta_nonneg _ _) Hs Hr).
    split; [apply signed_false_nonneg|]; assumption.
  - destruct (negative_signed _ Hdt) as [Hs _].
    pose proof (int_truediv_signed _ _ _ true (byte_delta_nonneg _ _) Hs Hr).
    split; [apply signed_true_nonpos|]; assumption.
Qed.

(** The clock went back by one second while the disk read counter fell and
    the others grew: every rate is non-positive. *)
Lemma rates_follow_sign_of_elapsed_witness :
  exists (m : Metrics) (st' : App),
    _collect_metrics
      (Sample.host 99 (Sample.secs 10) (Sample.secs 40) 400 2600 3000 4100)
      (Sample.app []) = (Ok m, st') /\
    PyFloat.leb (rate DiskRead m) PyFloat.zero = true /\
    PyFloat.leb (rate NetRecv m) PyFloat.zero = true.
Proof.
  destruct (_collect_metrics
              (Sample.host 99 (Sample.secs 10) (Sample.secs 40) 400 2600 3000 4100)
              (Sample.app [])) as [[m|e] st'] eqn:E.
  - exists m, st'. split; [reflexivity|]. split.
    + exact (proj1 (proj2 (rates_follow_sign_of_elapsed _ _ _ _ DiskRead E)
                      eq_refl)).
    + exact (proj1 (proj2 (rates_follow_sign_of_elapsed _ _ _ _ NetRecv E)
                      eq_refl)).
  - exfalso. vm_compute in E. discriminate E.
Defined.

(** ** The state a collection leaves *)

(** X2.  A returning collection stores what it has just read: the disk and
    network counters and the instant of this tick become the baseline of the
    next one, the snapshot carries that same instant and the number of pids,
    the CPU reading is appended to the history, and the widgets, the timers
    and the console are not touched. *)
Theorem collect_commits_readings (h : Host) (st st' : App) (m : Metrics) :
  _collect_metrics h st = (Ok m, st') ->
  Some (prev_disk st') = disk_io_counters h /\
  Some (prev_net st') = net_io_counters h /\
  prev_time st' = time_time h /\
  timestamp m = time_time h /\
  Some (proc_count m) = option_map (fun ps => Z.of_nat (List.length ps)) (pids h) /\
  cpu_history st' = Deque.append (cpu_history st) (cpu m) /\
  widgets st' = widgets st /\ timers st' = timers st /\ stdout st' = stdout st.
Proof.
  intros Hc.
  destruct (collect_returns h st st' m Hc)
    as (c0 & v & ps & cd & cn & _ & _ & Hp & Hd & Hn & _ & Hcpu & _ & Hpc & Hts & ->).
  rewrite Hd, Hn, Hp, Hcpu, Hpc, Hts. cbn. repeat split.
Qed.

Lemma collect_commits_readings_witness :
  exists (m : Metrics) (st' : App),
    _collect_metrics
      (Sample.host 101 (Sample.secs 10) (Sample.secs 40) 1500 2600 3000 4100)
      (Sample.app []) = (Ok m, st') /\
    Some (prev_disk st') =
      Some {| psutil.read_bytes := 1500; psutil.write_bytes := 2600 |} /\
    prev_time st' = Sample.secs 101.
Proof.
  destruct (_collect_metrics
              (Sample.host 101 (Sample.secs 10) (Sample.secs 40) 1500 2600 3000 4100)
              (Sample.app [])) as [[m|e] st'] eqn:E.
  - exists m, st'. split; [reflexivity|].
    destruct (collect_commits_readings _ _ _ _ E) as (Hd & _ & Ht & _).
    split; [exact Hd | exact Ht].
  - exfalso. vm_compute in E. discriminate E.
Defined.

(** X3.  Two returning collections in a row: the rates of the second are
    computed against the readings and the instant of the first, that is
    max(0, second - first) / (now2 - now1) for each counter, provided the
    first instant is not zero; and the history has gained the two CPU
    readings in order. *)
Theorem consecutive_collections_chain
    (h1 h2 : Host) (st st1 st2 : App) (m1 m2 : Metrics)
    (cd1 cd2 : psutil.sdiskio) (cn1 cn2 : psutil.snetio) (c : counter) :
  disk_io_counters h1 = Some cd1 -> net_io_counters h1 = Some cn1 ->
  disk_io_counters h2 = Some cd2 -> net_io_counters h2 = Some cn2 ->
  PyFloat.truthy (time_time h1) = true ->
  _collect_metrics h1 st = (Ok m1, st1) ->
  _collect_metrics h2 st1 = (Ok m2, st2) ->
  PyFloat.int_truediv
    (byte_delta (reading c cd2 cn2) (reading c cd1 cn1))
    (PyFloat.sub (time_time h2) (time_time h1)) = Ok (rate c m2) /\
  cpu_history st2 =
    Deque.append (Deque.append (cpu_history st) (cpu m1)) (cpu m2).
Proof.
  intros Hd1 Hn1 Hd2 Hn2 Ht H1 H2.
  destruct (collect_returns h1 st st1 m1 H1)
    as (c1 & v1 & ps1 & cd1' & cn1' & _ & _ & _ & Hd1' & Hn1' & _ & Hcpu1 & _ & _ & _ & Hst1).
  destruct (collect_returns h2 st1 st2 m2 H2)
    as (c2 & v2 & ps2 & cd2' & cn2' & _ & _ & _ & Hd2' & Hn2' & Hr & Hcpu2 & _ & _ & _ & Hst2).
  rewrite Hd1 in Hd1'. rewrite Hn1 in Hn1'. rewrite Hd2 in Hd2'. rewrite Hn2 in Hn2'.
  apply Some_inj in Hd1'. apply Some_inj in Hn1'.
  apply Some_inj in Hd2'. apply Some_inj in Hn2'.
  subst cd1' cn1' cd2' cn2'.
  specialize (Hr c).
  assert (Hprev : previous c st1 = reading c cd1 cn1) by (rewrite Hst1; reflexivity).
  assert (Hel : elapsed (time_time h2) st1 =
                PyFloat.sub (time_time h2) (time_time h1)).
  { unfold elapsed. rewrite Hst1. cbn [prev_time set_cpu_history set_prev_net
      set_prev_disk set_prev_time]. rewrite Ht. reflexivity. }
  rewrite Hprev, Hel in Hr. split; [exact Hr|].
  rewrite Hst2, Hst1, Hcpu1, Hcpu2. reflexivity.
Qed.

(** Two ticks, at instants 101 and 103; the read counter goes 1000, 1500,
    3548: the second read rate is 2048 / 2.0. *)
Lemma consecutive_collections_chain_witness :
  exists (m1 m2 : Metrics) (st1 st2 : App),
    _collect_metrics
      (Sample.host 101 (Sample.secs 10) (Sample.secs 40) 1500 2600 3000 4100)
      (Sample.app []) = (Ok m1, st1) /\
    _collect_metrics
      (Sample.host 103 (Sample.secs 20) (Sample.secs 40) 3548 2600 3000 4100)
      st1 = (Ok m2, st2) /\
    PyFloat.int_truediv (byte_delta 3548 1500)
      (PyFloat.sub (Sample.secs 103) (Sample.secs 101)) = Ok (rate DiskRead m2).
Proof.
  destruct (_collect_metrics
              (Sample.host 101 (Sample.secs 10) (Sample.secs 40) 1500 2600 3000 4100)
              (Sample.app [])) as [[m1|e] st1] eqn:E1;
    [|exfalso; vm_compute in E1; discriminate E1].
  destruct (_collect_metrics
              (Sample.host 103 (Sample.secs 20) (Sample.secs 40) 3548 2600 3000 4100)
              st1) as [[m2|e] st2] eqn:E2.
  - exists m1, m2, st1, st2. split; [reflexivity|]. split; [exact E2|].
    exact (proj1 (consecutive_collections_chain
                    (Sample.host 101 (Sample.secs 10) (Sample.secs 40)
                       1500 2600 3000 4100)
                    (Sample.host 103 (Sample.secs 20) (Sample.secs 40)
                       3548 2600 3000 4100)
                    _ _ _ _ _ _ _ _ _ DiskRead
                    eq_refl eq_refl eq_refl eq_refl eq_refl E1 E2)).
  - exfalso. vm_compute in E1. apply pair_inj in E1. destruct E1 as [_ <-].
    vm_compute in E2. discriminate E2.
Defined.

(** X4.  With the five reads returning, a [dt] that is not zero and counter
    deltas that convert to a float, the collection returns a snapshot: reads
    and the two arithmetic errors are its only ways to fail. *)
Theorem collection_returns_when_reads_do
    (h : Host) (st : App) (c0 v : PyFloat.float) (ps : list Z)
    (cd : psutil.sdiskio) (cn : psutil.snetio) :
  cpu_percent h = Some c0 ->
  virtual_memory_percent h = Some v ->
  pids h = Some ps ->
  disk_io_counters h = Some cd ->
  net_io_counters h = Some cn ->
  PyFloat.is_zero (elapsed (time_time h) st) = false ->
  (forall c : counter,
      exists f, PyFloat.of_int (byte_delta (reading c cd cn) (previous c st)) = Ok f) ->
  exists (m : Metrics) (st' : App),
    _collect_metrics h st = (Ok m, st') /\
    cpu m = c0 /\ mem m = v /\ proc_count m = Z.of_nat (List.length ps).
Proof.
  intros Hc Hv Hp Hd Hn Hz Hfit.
  destruct (collect_succeeds h st c0 v ps cd cn Hc Hv Hp Hd Hn Hz Hfit)
    as (m & st' & E).
  exists m, st'. split; [exact E|].
  destruct (collect_returns h st st' m E)
    as (c0' & v' & ps' & _ & _ & Hc' & Hv' & Hp' & _ & _ & _ & Hcpu & Hmem & Hpc & _).
  rewrite Hc in Hc'. rewrite Hv in Hv'. rewrite Hp in Hp'.
  apply Some_inj in Hc'. apply Some_inj in Hv'. apply Some_inj in Hp'.
  subst. auto.
Qed.

Lemma collection_returns_when_reads_do_witness :
  exists (m : Metrics) (st' : App),
    _collect_metrics
      (Sample.host 101 (Sample.secs 10) (Sample.secs 40) 1500 2600 3000 4100)
      (Sample.app []) = (Ok m, st') /\
    cpu m = Sample.secs 10 /\ mem m = Sample.secs 40 /\ proc_count m = 3.
Proof.
  apply (collection_returns_when_reads_do
           (Sample.host 101 (Sample.secs 10) (Sample.secs 40) 1500 2600 3000 4100)
           (Sample.app []) (Sample.secs 10) (Sample.secs 40) [1; 2; 3]
           {| psutil.read_bytes := 1500; psutil.write_bytes := 2600 |}
           {| psutil.bytes_sent := 3000; psutil.bytes_recv := 4100 |}
           eq_refl eq_refl eq_refl eq_refl eq_refl eq_refl).
  intros [ | | | ]; eexists; vm_compute; reflexivity.
Defined.

(** X5.  When the CPU, memory, process and disk reads return but [dt] is
    zero, the first division raises: the collection ends in
    ZeroDivisionError before the network is read, with the stored instant
    overwritten and the stored counters, the history and everything else as
    before. *)
Theorem zero_elapsed_stops_at_first_division
    (h : Host) (st : App) (c0 v : PyFloat.float) (ps : list Z)
    (cd : psutil.sdiskio) (f : PyFloat.float) :
  cpu_percent h = Some c0 ->
  virtual_memory_percent h = Some v ->
  pids h = Some ps ->
  disk_io_counters h = Some cd ->
  PyFloat.of_int
    (byte_delta (psutil.read_bytes cd) (psutil.read_bytes (prev_disk st))) = Ok f ->
  PyFloat.is_zero (elapsed (time_time h) st) = true ->
  _collect_metrics h st =
  (Raise ZeroDivisionError, set_prev_time (time_time h) st).
Proof.
  intros Hc Hv Hp Hd Hf Hz.
  unfold _collect_metrics. run_monad.
  rewrite Hc, Hv, Hp, Hd. cbn.
  unfold PyFloat.int_truediv at 1. unfold rbind at 1.
  cbn [prev_disk set_prev_time]. rewrite Hf, Hz. reflexivity.
Qed.

(** The clock still reads 100, the stored instant. *)
Lemma zero_elapsed_stops_at_first_division_witness :
  _collect_metrics
    (Sample.host 100 (Sample.secs 10) (Sample.secs 40) 1500 2600 3000 4100)
    (Sample.app []) =
  (Raise ZeroDivisionError, set_prev_time (Sample.secs 100) (Sample.app [])).
Proof.
  apply (zero_elapsed_stops_at_first_division
           (Sample.host 100 (Sample.secs 10) (Sample.secs 40) 1500 2600 3000 4100)
           (Sample.app []) (Sample.secs 10) (Sample.secs 40) [1; 2; 3]
           {| psutil.read_bytes := 1500; psutil.write_bytes := 2600 |}
           (PyFloat.of_Z 500));
    reflexivity.
Defined.

(** ** What a tick shows *)

(** X6.  When the collection of a tick raises, [_schedule_update] leaves
    every widget, the plotted line included, exactly as it was: the display
    keeps the previous values; the history is unchanged, the stored instant
    is already that of the failed tick, and the exception is on the console
    when the console takes it. *)
Theorem failed_collection_keeps_display
    (h : Host) (st st' : App) (e : exn) :
  _collect_metrics h st = (Raise e, st') ->
  widgets (snd (_schedule_update h st)) = widgets st /\
  stdout (snd (_schedule_update h st)) =
    match console h with
    | Some _ => (stdout st ++ [e])%list
    | None => stdout st
    end /\
  cpu_history (snd (_schedule_update h st)) = cpu_history st /\
  prev_time (snd (_schedule_update h st)) = time_time h.
Proof.
  intros Hc.
  assert (Htb : tick_body h st = (Raise e, st'))
    by (unfold tick_body, bind; rewrite Hc; reflexivity).
  rewrite schedule_update_unfold, Htb. cbn [fst snd].
  apply collect_raises in Hc.
  destruct Hc as (Hw & _ & Hs & Hh & _ & Ht & _).
  destruct (console h); cbn; rewrite ?Hw, ?Hs, ?Hh, ?Ht; repeat split.
Qed.

Lemma failed_collection_keeps_display_witness :
  widgets (snd (_schedule_update (Sample.host_cpu_fails 101 1500 2600 3000 4000)
                  (Sample.app []))) = Sample.widgets0 /\
  stdout (snd (_schedule_update (Sample.host_cpu_fails 101 1500 2600 3000 4000)
                 (Sample.app []))) = [HostError Cpu].
Proof.
  destruct (failed_collection_keeps_display
              (Sample.host_cpu_fails 101 1500 2600 3000 4000) (Sample.app [])
              _ (HostError Cpu) eq_refl) as (Hw & Hs & _).
  split; [exact Hw | exact Hs].
Defined.

(** ** The widget update *)

Lemma format_bytes_returns (x : PyFloat.float) :
  exists s : string, _format_bytes x = Ok s.
Proof.
  unfold _format_bytes. rewrite truediv_int_1024, truediv_int_1024_2.
  destruct (PyFloat.lt_int x 1024); [eexists; reflexivity|].
  destruct (PyFloat.lt_int x (1024 ^ 2)); eexists; reflexivity.
Qed.

Lemma bind_widget {B : Type} (f : Widgets -> Widgets) (k : unit -> M B) (s : App) :
  bind (widget f) k s = k tt (set_widgets (f (widgets s)) s).
Proof. reflexivity. Qed.

Lemma bind_get {B : Type} (k : App -> M B) (s : App) : bind get k s = k s s.
Proof. reflexivity. Qed.

Lemma bind_call_ok {A B : Type} (a : A) (k : A -> M B) (s : App) :
  bind (call (Ok a)) k s = k a s.
Proof. reflexivity. Qed.

Lemma bind_call_raise {A B : Type} (e : exn) (k : A -> M B) (s : App) :
  bind (call (Raise e)) k s = (Raise e, s).
Proof. reflexivity. Qed.

Lemma set_widgets_twice (w w' : Widgets) (s : App) :
  set_widgets w (set_widgets w' s) = set_widgets w s.
Proof. reflexivity. Qed.

Lemma widgets_set_widgets (w : Widgets) (s : App) :
  widgets (set_widgets w s) = w.
Proof. reflexivity. Qed.

Ltac mstep :=
  first [rewrite bind_widget | rewrite bind_get
        | rewrite bind_call_ok | rewrite bind_call_raise];
  cbv beta; rewrite ?widgets_set_widgets, ?set_widgets_twice.

(** The widgets after the seven value labels were written. *)
Lemma update_widgets_labels (h : Host) (m : Metrics) (st : App)
    (s1 s2 s3 s4 : string) :
  _format_bytes (read_bps m) = Ok s1 ->
  _format_bytes (write_bps m) = Ok s2 ->
  _format_bytes (sent_bps m) = Ok s3 ->
  _format_bytes (recv_bps m) = Ok s4 ->
  _update_widgets h m st =
  let w :=
    set_net_recv_var s4 (set_net_sent_var s3 (set_disk_write_var s2
      (set_disk_read_var s1 (set_proc_count_var (proc_count m)
        (set_mem_percent_var (round_ndigits 1 (mem m))
          (set_cpu_percent_var (round_ndigits 1 (cpu m)) (widgets st))))))) in
  match strftime_localtime h (timestamp m) with
  | None => (Raise StrftimeError, set_widgets w st)
  | Some s =>
      match line (widgets st) with
      | None => (Ok tt, set_widgets (set_last_update_var s w) st)
      | Some _ =>
          (outcome DrawError (draw_idle h),
           set_widgets
             (set_line (Some (Deque.to_list (cpu_history st)))
                (set_last_update_var s w)) st)
      end
  end.
Proof.
  intros H1 H2 H3 H4.
  unfold _update_widgets.
  rewrite H1, H2, H3, H4.
  do 11 mstep.
  destruct (strftime_localtime h (timestamp m)) as [s|]; unfold outcome at 1.
  - repeat mstep.
    cbn [line set_last_update_var set_net_recv_var set_net_sent_var
         set_disk_write_var set_disk_read_var set_proc_count_var
         set_mem_percent_var set_cpu_percent_var].
    destruct (line (widgets st)).
    + mstep. reflexivity.
    + reflexivity.
  - mstep. reflexivity.
Qed.

(** X7.  When the time formatting returns and the canvas (if there is one)
    redraws, [_update_widgets] returns and every widget shows the snapshot:
    the CPU and memory variables hold the readings rounded to one decimal,
    the process count is the snapshot's, the four rate labels are
    [_format_bytes] of the four rates, the timestamp label is the formatted
    time, and the plotted line, when there is one, holds the current
    history. *)
Theorem update_widgets_shows_snapshot
    (h : Host) (m : Metrics) (st : App) (s : string) :
  strftime_localtime h (timestamp m) = Some s ->
  line (widgets st) = None \/ draw_idle h = Some tt ->
  exists st' : App,
    _update_widgets h m st = (Ok tt, st') /\
    cpu_percent_var (widgets st') = round_ndigits 1 (cpu m) /\
    mem_percent_var (widgets st') = round_ndigits 1 (mem m) /\
    proc_count_var (widgets st') = proc_count m /\
    Ok (disk_read_var (widgets st')) = _format_bytes (read_bps m) /\
    Ok (disk_write_var (widgets st')) = _format_bytes (write_bps m) /\
    Ok (net_sent_var (widgets st')) = _format_bytes (sent_bps m) /\
    Ok (net_recv_var (widgets st')) = _format_bytes (recv_bps m) /\
    last_update_var (widgets st') = s /\
    line (widgets st') =
      option_map (fun _ => Deque.to_list (cpu_history st)) (line (widgets st)).
Proof.
  intros Hs Hl.
  destruct (format_bytes_returns (read_bps m)) as [s1 H1].
  destruct (format_bytes_returns (write_bps m)) as [s2 H2].
  destruct (format_bytes_returns (sent_bps m)) as [s3 H3].
  destruct (format_bytes_returns (recv_bps m)) as [s4 H4].
  rewrite (update_widgets_labels h m st s1 s2 s3 s4 H1 H2 H3 H4).
  rewrite H1, H2, H3, H4, Hs. cbv zeta.
  destruct (line (widgets st)) as [l|] eqn:El.
  - destruct Hl as [Hl|Hl]; [discriminate|]. rewrite Hl.
    eexists. split; [reflexivity|]. cbn. repeat split.
  - eexists. split; [reflexivity|]. cbn. rewrite El. repeat split.
Qed.

Lemma update_widgets_shows_snapshot_witness :
  exists st' : App,
    _update_widgets
      (Sample.host 101 (Sample.secs 10) (Sample.secs 40) 1500 2600 3000 4100)
      {| cpu := Sample.secs 10; mem := Sample.secs 40; proc_count := 3;
         read_bps := Sample.secs 1536; write_bps := PyFloat.zero;
         sent_bps := PyFloat.zero; recv_bps := PyFloat.zero;
         timestamp := Sample.secs 101 |}
      (Sample.app []) = (Ok tt, st') /\
    Ok (disk_read_var (widgets st')) = Ok "1.5 KB/s" /\
    last_update_var (widgets st') = "2025-11-18 12:00:00".
Proof.
  destruct (update_widgets_shows_snapshot
              (Sample.host 101 (Sample.secs 10) (Sample.secs 40) 1500 2600 3000 4100)
              {| cpu := Sample.secs 10; mem := Sample.secs 40; proc_count := 3;
                 read_bps := Sample.secs 1536; write_bps := PyFloat.zero;
                 sent_bps := PyFloat.zero; recv_bps := PyFloat.zero;
                 timestamp := Sample.secs 101 |}
              (Sample.app []) "2025-11-18 12:00:00" eq_refl (or_introl eq_refl))
    as (st' & E & _ & _ & _ & Hr & _ & _ & _ & Ht & _).
  exists st'. split; [exact E|]. split; [|exact Ht].
  etransitivity; [exact Hr|]. vm_compute. reflexivity.
Defined.

(** X8.  When the time formatting raises, [_update_widgets] raises after the
    CPU, memory, process and rate widgets were already written with the new
    snapshot: those show the new values while the timestamp label and the
    plotted line keep the old ones. *)
Theorem strftime_failure_leaves_partial_update
    (h : Host) (m : Metrics) (st : App) :
  strftime_localtime h (timestamp m) = None ->
  exists st' : App,
    _update_widgets h m st = (Raise StrftimeError, st') /\
    cpu_percent_var (widgets st') = round_ndigits 1 (cpu m) /\
    mem_percent_var (widgets st') = round_ndigits 1 (mem m) /\
    proc_count_var (widgets st') = proc_count m /\
    Ok (disk_read_var (widgets st')) = _format_bytes (read_bps m) /\
    Ok (disk_write_var (widgets st')) = _format_bytes (write_bps m) /\
    Ok (net_sent_var (widgets st')) = _format_bytes (sent_bps m) /\
    Ok (net_recv_var (widgets st')) = _format_bytes (recv_bps m) /\
    last_update_var (widgets st') = last_update_var (widgets st) /\
    line (widgets st') = line (widgets st).
Proof.
  intros Hs.
  destruct (format_bytes_returns (read_bps m)) as [s1 H1].
  destruct (format_bytes_returns (write_bps m)) as [s2 H2].
  destruct (format_bytes_returns (sent_bps m)) as [s3 H3].
  destruct (format_bytes_returns (recv_bps m)) as [s4 H4].
  rewrite (update_widgets_labels h m st s1 s2 s3 s4 H1 H2 H3 H4).
  rewrite H1, H2, H3, H4, Hs. cbv zeta.
  eexists. split; [reflexivity|]. cbn. repeat split.
Qed.

Lemma strftime_failure_leaves_partial_update_witness :
  exists st' : App,
    _update_widgets
      (Sample.host_draw_fails 101 1500 2600 3000 4100)
      {| cpu := Sample.secs 10; mem := Sample.secs 40; proc_count := 3;
         read_bps := Sample.secs 1536; write_bps := PyFloat.zero;
         sent_bps := PyFloat.zero; recv_bps := PyFloat.zero;
         timestamp := Sample.secs 101 |}
      (Sample.app []) = (Raise StrftimeError, st') /\
    proc_count_var (widgets st') = 3 /\
    last_update_var (widgets st') = "".
Proof.
  destruct (strftime_failure_leaves_partial_update
              (Sample.host_draw_fails 101 1500 2600 3000 4100)
              {| cpu := Sample.secs 10; mem := Sample.secs 40; proc_count := 3;
                 read_bps := Sample.secs 1536; write_bps := PyFloat.zero;
                 sent_bps := PyFloat.zero; recv_bps := PyFloat.zero;
                 timestamp := Sample.secs 101 |}
              (Sample.app []) eq_refl)
    as (st' & E & _ & _ & Hp & _ & _ & _ & _ & Ht & _).
  exists st'. split; [exact E|]. split; [exact Hp | exact Ht].
Defined.

(** X9.  [_update_widgets], whether it returns or raises, writes nothing but
    widgets: the stored counters and instant, the history, the pending
    timers and the console are as before. *)
Theorem update_widgets_touches_widgets_only
    (h : Host) (m : Metrics) (st st' : App) (r : result unit) :
  _update_widgets h m st = (r, st') ->
  prev_disk st' = prev_disk st /\ prev_net st' = prev_net st /\
  prev_time st' = prev_time st /\ cpu_history st' = cpu_history st /\
  timers st' = timers st /\ stdout st' = stdout st.
Proof.
  intros H.
  pose proof (update_widgets_frame h m st) as Hf.
  rewrite H in Hf. cbn [snd] in Hf.
  destruct Hf as (A1 & A2 & A3 & A4 & A5 & A6).
  repeat split; assumption.
Qed.

Lemma update_widgets_touches_widgets_only_witness :
  exists (r : result unit) (st' : App),
    _update_widgets
      (Sample.host_draw_fails 101 1500 2600 3000 4100)
      {| cpu := Sample.secs 10; mem := Sample.secs 40; proc_count := 3;
         read_bps := Sample.secs 1536; write_bps := PyFloat.zero;
         sent_bps := PyFloat.zero; recv_bps := PyFloat.zero;
         timestamp := Sample.secs 101 |}
      (Sample.app []) = (r, st') /\
    prev_time st' = Sample.secs 100 /\ timers st' = [].
Proof.
  destruct (_update_widgets
      (Sample.host_draw_fails 101 1500 2600 3000 4100)
      {| cpu := Sample.secs 10; mem := Sample.secs 40; proc_count := 3;
         read_bps := Sample.secs 1536; write_bps := PyFloat.zero;
         sent_bps := PyFloat.zero; recv_bps := PyFloat.zero;
         timestamp := Sample.secs 101 |}
      (Sample.app [])) as [r st'] eqn:E.
  exists r, st'. split; [reflexivity|].
  destruct (update_widgets_touches_widgets_only _ _ _ _ _ E)
    as (_ & _ & Ht & _ & Hti & _).
  split; [exact Ht | exact Hti].
Defined.

(** ** The history over the life of the program *)

Lemma append_full {A : Type} (d : Deque.deque A) (x : A) :
  List.length (Deque.items d) = Deque.maxlen d ->
  List.length (Deque.items (Deque.append d x)) = Deque.maxlen d.
Proof.
  intros Hfull. rewrite append_items by lia.
  rewrite length_skipn, length_app. cbn. lia.
Qed.

(** On a full deque an append drops the oldest element and puts the new one
    last. *)
Lemma append_shifts {A : Type} (d : Deque.deque A) (x : A) :
  List.length (Deque.items d) = Deque.maxlen d ->
  (0 < Deque.maxlen d)%nat ->
  Deque.items (Deque.append d x) = (tl (Deque.items d) ++ [x])%list.
Proof.
  intros Hfull Hpos. rewrite append_items by lia.
  rewrite length_app. cbn [List.length].
  replace (List.length (Deque.items d) + 1 - Deque.maxlen d)%nat
    with 1%nat by lia.
  destruct (Deque.items d) as [|a l]; [cbn in Hfull; lia | reflexivity].
Qed.

(** The history after the [try] block: one more reading when the collection
    returned, the same otherwise, whatever the widget update did. *)
Lemma tick_body_history (h : Host) (st : App) :
  cpu_history (snd (tick_body h st)) =
  match fst (_collect_metrics h st) with
  | Ok m => Deque.append (cpu_history st) (cpu m)
  | Raise _ => cpu_history st
  end.
Proof.
  unfold tick_body, bind.
  destruct (_collect_metrics h st) as [[m|e] st1] eqn:E; cbn [fst].
  - apply collect_returns in E.
    destruct E as (c0 & v & ps & cd & cn & _ & _ & _ & _ & _ & _ & Hcpu & _ & _ & _ & ->).
    pose proof (update_widgets_frame h m
      (set_cpu_history (Deque.append (cpu_history st) c0)
         (set_prev_net cn (set_prev_disk cd (set_prev_time (time_time h) st)))))
      as (_ & _ & Hh & _).
    rewrite Hh, Hcpu. reflexivity.
  - apply collect_raises in E. destruct E as (_ & _ & _ & Hh & _).
    cbn [snd]. exact Hh.
Qed.

(** The handler and [root.after] leave the history alone. *)
Lemma schedule_update_history (h : Host) (st : App) :
  cpu_history (snd (_schedule_update h st)) =
  match fst (_collect_metrics h st) with
  | Ok m => Deque.append (cpu_history st) (cpu m)
  | Raise _ => cpu_history st
  end.
Proof.
  rewrite <- tick_body_history, schedule_update_unfold.
  destruct (fst (tick_body h st)); [reflexivity|].
  destruct (console h); reflexivity.
Qed.

Lemma schedule_update_keeps_full (h : Host) (st : App) (n : nat) :
  List.length (Deque.items (cpu_history st)) = n /\
  Deque.maxlen (cpu_history st) = n ->
  List.length (Deque.items (cpu_history (snd (_schedule_update h st)))) = n /\
  Deque.maxlen (cpu_history (snd (_schedule_update h st))) = n.
Proof.
  intros [Hl Hm]. rewrite schedule_update_history.
  destruct (fst (_collect_metrics h st)) as [m|e]; [|auto].
  rewrite append_maxlen. split; [|exact Hm].
  rewrite append_full by lia. exact Hm.
Qed.

Lemma mainloop_keeps_full (n : nat) (hs : list Host) : forall st st' : App,
  List.length (Deque.items (cpu_history st)) = n /\
  Deque.maxlen (cpu_history st) = n ->
  mainloop hs st = Some st' ->
  List.length (Deque.items (cpu_history st')) = n /\
  Deque.maxlen (cpu_history st') = n.
Proof.
  induction hs as [|h hs IH]; intros st st' Hfull Hrun.
  - cbn in Hrun. apply Some_inj in Hrun. subst st'. exact Hfull.
  - cbn [mainloop] in Hrun. unfold mainloop_step in Hrun.
    destruct (timers st) as [|[ms [ ]] rest] eqn:Et; [discriminate|].
    cbn [fire] in Hrun.
    apply (IH _ _ (schedule_update_keeps_full h (set_timers rest st) n Hfull) Hrun).
Qed.

(** X10.  From construction on, after any number of ticks, failed or not,
    the CPU history holds exactly [CPU_HISTORY_LEN] = 60 values: the plot
    always has as many points as its fixed x axis. *)
Theorem history_always_full
    (matplotlib : bool) (h0 h1 : Host) (hs : list Host) (a a' : App) :
  __init__ matplotlib h0 h1 = Ok a ->
  mainloop hs a = Some a' ->
  List.length (Deque.to_list (cpu_history a)) = CPU_HISTORY_LEN /\
  List.length (Deque.to_list (cpu_history a')) = CPU_HISTORY_LEN.
Proof.
  intros Hinit Hrun.
  assert (Ha : List.length (Deque.items (cpu_history a)) = CPU_HISTORY_LEN /\
               Deque.maxlen (cpu_history a) = CPU_HISTORY_LEN).
  { destruct (init_returns _ _ _ _ Hinit) as (d & n & _ & _ & E).
    pose proof (schedule_update_keeps_full h1
                  (init_state matplotlib d n (time_time h0)) CPU_HISTORY_LEN
                  (conj eq_refl eq_refl)) as Hk.
    rewrite E in Hk. exact Hk. }
  split; [exact (proj1 Ha)|].
  exact (proj1 (mainloop_keeps_full CPU_HISTORY_LEN hs a a' Ha Hrun)).
Qed.

(** X11.  A returning collection on a full history shifts it by one: the
    oldest reading leaves and the CPU reading of this tick becomes the
    newest. *)
Theorem tick_shifts_history (h : Host) (st st' : App) (m : Metrics) :
  _collect_metrics h st = (Ok m, st') ->
  List.length (Deque.to_list (cpu_history st)) = Deque.maxlen (cpu_history st) ->
  (0 < Deque.maxlen (cpu_history st))%nat ->
  Deque.to_list (cpu_history st') =
  (tl (Deque.to_list (cpu_history st)) ++ [cpu m])%list.
Proof.
  intros Hc Hfull Hpos.
  destruct (collect_returns h st st' m Hc)
    as (c0 & v & ps & cd & cn & _ & _ & _ & _ & _ & _ & Hcpu & _ & _ & _ & ->).
  unfold Deque.to_list in *. cbn [cpu_history set_cpu_history].
  rewrite Hcpu. apply append_shifts; assumption.
Qed.

Lemma tick_shifts_history_witness :
  exists (m : Metrics) (st' : App),
    _collect_metrics
      (Sample.host 101 (Sample.secs 10) (Sample.secs 40) 1500 2600 3000 4100)
      (Sample.app []) = (Ok m, st') /\
    Deque.to_list (cpu_history st') =
    (repeat PyFloat.zero 59 ++ [cpu m])%list.
Proof.
  destruct (_collect_metrics
              (Sample.host 101 (Sample.secs 10) (Sample.secs 40) 1500 2600 3000 4100)
              (Sample.app [])) as [[m|e] st'] eqn:E.
  - exists m, st'. split; [reflexivity|].
    exact (tick_shifts_history _ _ _ _ E eq_refl (Nat.lt_0_succ 59)).
  - exfalso. vm_compute in E. discriminate E.
Defined.

(** Construction, then three ticks of which the first two fail. *)
Lemma history_always_full_witness :
  exists a a' : App,
    __init__ true
      (Sample.host 100 (Sample.secs 10) (Sample.secs 40) 1000 2000 3000 4000)
      (Sample.host 101 (Sample.secs 10) (Sample.secs 40) 1500 2600 3000 4100)
    = Ok a /\
    mainloop
      [Sample.host_cpu_fails 102 1500 2600 3000 4000;
       Sample.host_draw_fails 103 1500 2600 3000 4000;
       Sample.host 104 (Sample.secs 10) (Sample.secs 40) 1500 2600 3000 4000]
      a = Some a' /\
    List.length (Deque.to_list (cpu_history a')) = CPU_HISTORY_LEN.
Proof.
  destruct (__init__ true
      (Sample.host 100 (Sample.secs 10) (Sample.secs 40) 1000 2000 3000 4000)
      (Sample.host 101 (Sample.secs 10) (Sample.secs 40) 1500 2600 3000 4100))
    as [a|e] eqn:Ei; [|exfalso; vm_compute in Ei; discriminate Ei].
  destruct (mainloop
      [Sample.host_cpu_fails 102 1500 2600 3000 4000;
       Sample.host_draw_fails 103 1500 2600 3000 4000;
       Sample.host 104 (Sample.secs 10) (Sample.secs 40) 1500 2600 3000 4000]
      a) as [a'|] eqn:Em.
  - exists a, a'. split; [reflexivity|]. split; [exact Em|].
    exact (proj2 (history_always_full _ _ _ _ _ _ Ei Em)).
  - exfalso. vm_compute in Ei. apply Ok_inj in Ei. rewrite <- Ei in Em.
    vm_compute in Em. discriminate Em.
Defined.

(** X12.  After a tick whose collection and widget update both returned, the
    plotted line, when the program has one, holds exactly the current
    history (this tick's reading included); without matplotlib there is
    still no line. *)
Theorem completed_tick_plots_history (h : Host) (st st' : App) :
  tick_body h st = (Ok tt, st') ->
  line (widgets st') =
  option_map (fun _ => Deque.to_list (cpu_history st')) (line (widgets st)).
Proof.
  unfold tick_body, bind.
  destruct (_collect_metrics h st) as [[m|e] st1] eqn:E; [|discriminate].
  apply collect_returns in E.
  destruct E as (c0 & v & ps & cd & cn & _ & _ & _ & _ & _ & _ & _ & _ & _ & _ & Hst1).
  assert (Hw : widgets st1 = widgets st) by (rewrite Hst1; reflexivity).
  destruct (format_bytes_returns (read_bps m)) as [s1 H1].
  destruct (format_bytes_returns (write_bps m)) as [s2 H2].
  destruct (format_bytes_returns (sent_bps m)) as [s3 H3].
  destruct (format_bytes_returns (recv_bps m)) as [s4 H4].
  rewrite (update_widgets_labels h m st1 s1 s2 s3 s4 H1 H2 H3 H4).
  cbv zeta. rewrite Hw.
  destruct (strftime_localtime h (timestamp m)) as [s|]; [|discriminate].
  destruct (line (widgets st)) as [l|] eqn:El.
  - intros H. apply pair_inj in H. destruct H as [_ <-]. reflexivity.
  - intros H. apply pair_inj in H. destruct H as [_ <-].
    cbn [line widgets set_widgets set_last_update_var set_net_recv_var
         set_net_sent_var set_disk_write_var set_disk_read_var
         set_proc_count_var set_mem_percent_var set_cpu_percent_var option_map].
    exact El.
Qed.

Lemma completed_tick_plots_history_witness :
  exists (a st' : App),
    __init__ true
      (Sample.host 100 (Sample.secs 10) (Sample.secs 40) 1000 2000 3000 4000)
      (Sample.host 101 (Sample.secs 10) (Sample.secs 40) 1500 2600 3000 4100)
    = Ok a /\
    tick_body
      (Sample.host 102 (Sample.secs 20) (Sample.secs 40) 1500 2600 3000 4100)
      a = (Ok tt, st') /\
    line (widgets st') = Some (Deque.to_list (cpu_history st')).
Proof.
  destruct (__init__ true
      (Sample.host 100 (Sample.secs 10) (Sample.secs 40) 1000 2000 3000 4000)
      (Sample.host 101 (Sample.secs 10) (Sample.secs 40) 1500 2600 3000 4100))
    as [a|e] eqn:Ei; [|exfalso; vm_compute in Ei; discriminate Ei].
  assert (Hl : exists l, line (widgets a) = Some l).
  { vm_compute in Ei. apply Ok_inj in Ei. rewrite <- Ei.
    eexists. reflexivity. }
  destruct Hl as [l Hl].
  destruct (tick_body
      (Sample.host 102 (Sample.secs 20) (Sample.secs 40) 1500 2600 3000 4100)
      a) as [[[]|e] st'] eqn:Et.
  - exists a, st'. split; [reflexivity|]. split; [exact Et|].
    rewrite (completed_tick_plots_history _ _ _ Et), Hl. reflexivity.
  - exfalso. vm_compute in Ei. apply Ok_inj in Ei. rewrite <- Ei in Et.
    vm_compute in Et. discriminate Et.
Defined.

Lemma tick_body_prev_time (h : Host) (st : App) :
  prev_time (snd (tick_body h st)) = time_time h.
Proof.
  unfold tick_body, bind.
  destruct (_collect_metrics h st) as [[m|e] st1] eqn:E.
  - apply collect_returns in E.
    destruct E as (c0 & v & ps & cd & cn & _ & _ & _ & _ & _ & _ & _ & _ & _ & _ & ->).
    pose proof (update_widgets_frame h m
      (set_cpu_history (Deque.append (cpu_history st) c0)
         (set_prev_net cn (set_prev_disk cd (set_prev_time (time_time h) st)))))
      as (_ & _ & _ & _ & _ & Ht).
    rewrite Ht. reflexivity.
  - apply collect_raises in E. destruct E as (_ & _ & _ & _ & _ & Ht & _).
    cbn [snd]. exact Ht.
Qed.

Lemma schedule_update_prev_time (h : Host) (st : App) :
  prev_time (snd (_schedule_update h st)) = time_time h.
Proof.
  rewrite <- (tick_body_prev_time h st), schedule_update_unfold.
  destruct (fst (tick_body h st)); [reflexivity|].
  destruct (console h); reflexivity.
Qed.

Lemma tick_body_raises (h : Host) (st st' : App) (e : exn) :
  _collect_metrics h st = (Raise e, st') -> tick_body h st = (Raise e, st').
Proof.
  intros Hc. unfold tick_body, bind. rewrite Hc. reflexivity.
Qed.

(** X13.  The constructor runs the first update itself, once its two
    baseline reads have returned.  When that first update ends normally (its
    [try] block returned, or the console took the exception), construction
    succeeds with one pending timer and the first tick's instant as
    baseline; when the first collection returned, the application already
    holds a history of 59 zeros followed by the first CPU reading; when it
    raised, the history is still 60 zeros and the exception is on the
    console.  When the first update does not end normally, the exception of
    the handler's [print] leaves the constructor. *)
Theorem constructor_runs_first_update
    (matplotlib : bool) (h0 h1 : Host)
    (d : psutil.sdiskio) (n : psutil.snetio) :
  disk_io_counters h0 = Some d ->
  net_io_counters h0 = Some n ->
  (handled h1 (init_state matplotlib d n (time_time h0)) ->
   exists a : App,
     __init__ matplotlib h0 h1 = Ok a /\
     timers a = [(UPDATE_INTERVAL_MS, Schedule_update)] /\
     prev_time a = time_time h1 /\
     match fst (_collect_metrics h1 (init_state matplotlib d n (time_time h0))) with
     | Ok m =>
         Deque.to_list (cpu_history a) =
         (repeat PyFloat.zero 59 ++ [cpu m])%list
     | Raise e =>
         Deque.to_list (cpu_history a) = repeat PyFloat.zero 60 /\
         stdout a = [e]
     end) /\
  (~ handled h1 (init_state matplotlib d n (time_time h0)) ->
   __init__ matplotlib h0 h1 = Raise PrintError).
Proof.
  intros Hd Hn. split.
  - intros Hh.
    destruct (schedule_update_timers h1 _ Hh) as [Hok Htm].
    exists (snd (_schedule_update h1 (init_state matplotlib d n (time_time h0)))).
    split.
    { unfold __init__, rbind, outcome. rewrite Hd, Hn.
      destruct (_schedule_update h1 (init_state matplotlib d n (time_time h0)))
        as [r a]. cbn [fst snd] in *. rewrite Hok. reflexivity. }
    split; [rewrite Htm; reflexivity|].
    split; [apply schedule_update_prev_time|].
    rewrite schedule_update_history, schedule_update_stdout.
    destruct (_collect_metrics h1 (init_state matplotlib d n (time_time h0)))
      as [[m|e] st1] eqn:E; cbn [fst].
    + unfold Deque.to_list.
      rewrite append_shifts;
        [reflexivity | reflexivity | exact (Nat.lt_0_succ 59)].
    + split; [reflexivity|].
      unfold handled in Hh.
      rewrite (tick_body_raises _ _ _ _ E) in Hh |- *. cbn [fst] in Hh |- *.
      rewrite Hh. reflexivity.
  - intros Hnh. unfold handled in Hnh.
    destruct (fst (tick_body h1 (init_state matplotlib d n (time_time h0))))
      as [u|e] eqn:E; [exfalso; apply Hnh; exact I|].
    destruct (console h1) as [[]|] eqn:Hc; [exfalso; apply Hnh; reflexivity|].
    destruct (schedule_update_escapes h1 _ e E Hc) as [Hesc _].
    unfold __init__, rbind, outcome. rewrite Hd, Hn.
    destruct (_schedule_update h1 (init_state matplotlib d n (time_time h0)))
      as [r a]. cbn [fst] in Hesc. rewrite Hesc. reflexivity.
Qed.

Lemma constructor_runs_first_update_witness :
  exists a : App,
    __init__ true
      (Sample.host 100 (Sample.secs 10) (Sample.secs 40) 1000 2000 3000 4000)
      (Sample.host 101 (Sample.secs 25) (Sample.secs 40) 1500 2600 3000 4100)
    = Ok a /\
    Deque.to_list (cpu_history a) =
    (repeat PyFloat.zero 59 ++ [Sample.secs 25])%list.
Proof.
  destruct (constructor_runs_first_update true
      (Sample.host 100 (Sample.secs 10) (Sample.secs 40) 1000 2000 3000 4000)
      (Sample.host 101 (Sample.secs 25) (Sample.secs 40) 1500 2600 3000 4100)
      _ _ eq_refl eq_refl) as [Hrun _].
  destruct (Hrun (console_handled
         (Sample.host 101 (Sample.secs 25) (Sample.secs 40) 1500 2600 3000 4100)
         _ eq_refl))
    as (a & Ha & _ & _ & Hh).
  exists a. split; [exact Ha|].
  vm_compute in Hh. vm_compute. exact Hh.
Defined.

(** The constructor when the first CPU read raises and the console refuses
    the handler's message. *)
Example constructor_print_failure :
  __init__ true
    (Sample.host 100 (Sample.secs 10) (Sample.secs 40) 1000 2000 3000 4000)
    (Sample.host_console_fails 101 1500 2600 3000 4000) = Raise PrintError.
Proof. vm_compute. reflexivity. Qed.


(** ** What the rate labels can show *)

Lemma round_half_even_zero (num den : Z) :
  0 <= num -> 0 < den -> 2 * num <= den ->
  PyFloat.round_half_even num den = 0.
Proof.
  intros Hn Hd Hle. unfold PyFloat.round_half_even.
  rewrite Z.div_small, Z.mod_small by lia.
  destruct (Z.compare_spec (2 * num) den); try reflexivity. lia.
Qed.

Lemma pow2_ge (a p : Z) : 0 <= a <= p -> 2 ^ a <= 2 ^ p.
Proof. intros H. apply Z.pow_le_mono_r; lia. Qed.

Lemma leb_half_pos (m : positive) (e : Z) :
  PyFloat.leb (S754_finite false m e) f0_5 = true ->
  e < -53 \/ (e = -53 /\ Zpos m <= Zpos PyFloat.pow2_52).
Proof.
  unfold PyFloat.leb, SFleb, SFcompare, f0_5.
  rewrite Pos.compare_cont_spec. unfold Pos.switch_Eq.
  destruct (Z.compare_spec e (-53)) as [Heq|Hlt|Hgt];
    [|left; exact Hlt|discriminate].
  destruct (Pos.compare_spec m PyFloat.pow2_52) as [Hc|Hc|Hc];
    [| |discriminate];
    intros _; right; (split; [exact Heq|]).
  - rewrite Hc. apply Z.le_refl.
  - apply Pos2Z.pos_lt_pos in Hc. apply Z.lt_le_incl. exact Hc.
Qed.

Lemma leb_half_neg (m : positive) (e : Z) :
  PyFloat.leb fm0_5 (S754_finite true m e) = true ->
  e < -53 \/ (e = -53 /\ Zpos m <= Zpos PyFloat.pow2_52).
Proof.
  unfold PyFloat.leb, SFleb, SFcompare, fm0_5.
  rewrite Pos.compare_cont_spec. unfold Pos.switch_Eq.
  rewrite (Pos.compare_antisym m PyFloat.pow2_52).
  destruct (Z.compare_spec (-53) e) as [Heq|Hlt|Hgt];
    [|discriminate|left; lia].
  destruct (Pos.compare_spec m PyFloat.pow2_52) as [Hc|Hc|Hc];
    [| |discriminate];
    intros _; right; (split; [symmetry; exact Heq|]).
  - rewrite Hc. apply Z.le_refl.
  - apply Pos2Z.pos_lt_pos in Hc. apply Z.lt_le_incl. exact Hc.
Qed.

Lemma mantissa_below_2_53 (s : bool) (m : positive) (e : Z) :
  PyFloat.valid (S754_finite s m e) = true -> Zpos m < 9007199254740992.
Proof.
  intros Hv.
  destruct (valid_finite s m e Hv) as (_ & _ & Hd & _).
  pose proof (digits2_pos_bounds m) as [_ Hm].
  assert (H : 2 ^ Zpos (digits2_pos m) <= 2 ^ 53) by (apply pow2_ge; lia).
  change (2 ^ 53) with 9007199254740992 in H. lia.
Qed.

(** A well-formed number of magnitude at most one half. *)
Lemma at_most_half (s : bool) (m : positive) (e : Z) :
  PyFloat.valid (S754_finite s m e) = true ->
  PyFloat.leb fm0_5 (S754_finite s m e) = true ->
  PyFloat.leb (S754_finite s m e) f0_5 = true ->
  exists p : positive, e = Zneg p /\ 53 <= Zpos p /\ 2 * Zpos m <= 2 ^ Zpos p.
Proof.
  intros Hv Hlo Hhi.
  pose proof (mantissa_below_2_53 s m e Hv) as Hm53.
  assert (He : e < -53 \/ (e = -53 /\ Zpos m <= Zpos PyFloat.pow2_52)).
  { destruct s; [exact (leb_half_neg m e Hlo) | exact (leb_half_pos m e Hhi)]. }
  clear Hv Hlo Hhi. unfold PyFloat.pow2_52 in He.
  destruct e as [|p|p]; try lia.
  exists p. split; [reflexivity|]. split; [lia|].
  destruct He as [He|[He Hle]].
  - assert (H54 : 2 ^ 54 <= 2 ^ Zpos p) by (apply pow2_ge; lia).
    change (2 ^ 54) with 18014398509481984 in H54. lia.
  - assert (Hp : Zpos p = 53) by lia. rewrite Hp.
    change (2 ^ 53) with 9007199254740992. lia.
Qed.

(** X14.  A rate of magnitude at most one half byte per second is shown as
    zero: "0 B/s" when its sign bit is clear, "-0 B/s" when it is set
    (negative zero and the small negative rates of a clock gone back). *)
Theorem tiny_rate_shows_zero (x : PyFloat.float) :
  PyFloat.valid x = true ->
  PyFloat.leb fm0_5 x = true ->
  PyFloat.leb x f0_5 = true ->
  _format_bytes x = Ok (if sign_bit x then "-0 B/s" else "0 B/s").
Proof.
  intros Hv Hlo Hhi.
  destruct x as [s|s| |s m e]; try discriminate.
  - destruct s; vm_compute; reflexivity.
  - destruct s; discriminate.
  - destruct (at_most_half s m e Hv Hlo Hhi) as (p & -> & Hp & Hle).
    assert (Hlt : PyFloat.lt_int (S754_finite s m (Zneg p)) 1024 = true).
    { unfold PyFloat.lt_int. rewrite of_Z_1024.
      destruct s; [reflexivity|].
      unfold PyFloat.ltb, SFltb, SFcompare.
      destruct (Z.compare_spec (Zneg p) (-42)); try reflexivity; lia. }
    unfold _format_bytes. rewrite Hlt.
    unfold PyFloat.format_fixed, PyFloat.scaled.
    change (10 ^ Z.of_nat 0) with 1.
    rewrite round_half_even_zero; [| lia | apply Z.pow_pos_nonneg; lia | lia].
    destruct s; reflexivity.
Qed.

Lemma tiny_rate_shows_zero_witness :
  _format_bytes (S754_finite true 5404319552844595 (-54)) = Ok "-0 B/s".
Proof.
  exact (tiny_rate_shows_zero (S754_finite true 5404319552844595 (-54))
           eq_refl eq_refl eq_refl).
Defined.

Lemma round_half_even_bounds (num den a b : Z) :
  0 < den -> a * den <= num <= b * den ->
  a <= PyFloat.round_half_even num den <= b.
Proof.
  intros Hden [Hlo Hhi]. unfold PyFloat.round_half_even.
  pose proof (Z.div_mod num den ltac:(lia)) as Hdm.
  pose proof (Z.mod_pos_bound num den Hden) as Hr.
  destruct (Z.compare_spec (2 * (num mod den)) den) as [Hc|Hc|Hc].
  - destruct (Z.even (num / den)); nia.
  - nia.
  - nia.
Qed.

Lemma below_1024 (m : positive) (e : Z) :
  PyFloat.lt_int (S754_finite false m e) 1024 = true ->
  e < -42 \/ (e = -42 /\ Zpos m < 4503599627370496).
Proof.
  unfold PyFloat.lt_int. rewrite of_Z_1024.
  unfold PyFloat.ltb, SFltb, SFcompare.
  rewrite Pos.compare_cont_spec. unfold Pos.switch_Eq.
  destruct (Z.compare_spec e (-42)) as [Heq|Hlt|Hgt];
    [|left; exact Hlt|discriminate].
  destruct (Pos.compare_spec m PyFloat.pow2_52) as [Hc|Hc|Hc];
    [discriminate| |discriminate].
  intros _. right. split; [exact Heq|].
  apply Pos2Z.pos_lt_pos in Hc. exact Hc.
Qed.

(** X15.  The figure on a rate label stays in the range of its unit: for a
    well-formed positive rate, the B/s row shows an integer from 0 to 1024,
    the KB/s row a number from 1.0 to 1024.0 and the MB/s row a number of at
    least 1.00 (the figure is [N] units of 10^-d, rendered with [d]
    decimals). *)
Theorem displayed_figure_in_range (m : positive) (e : Z) :
  PyFloat.valid (S754_finite false m e) = true ->
  exists (d : nat) (N : Z) (unit : string),
    _format_bytes (S754_finite false m e) = Ok (PyFloat.render d N ++ unit) /\
    ((d = 0%nat /\ unit = " B/s" /\ 0 <= N <= 1024) \/
     (d = 1%nat /\ unit = " KB/s" /\ 10 <= N <= 10240) \/
     (d = 2%nat /\ unit = " MB/s" /\ 100 <= N)).
Proof.
  intros Hv.
  pose proof (mantissa_below_2_53 false m e Hv) as Hm53.
  destruct (PyFloat.lt_int (S754_finite false m e) 1024) eqn:E1.
  - (* the B/s row *)
    destruct (below_1024 m e E1) as [He|[He Hm]].
    + destruct e as [|p|p]; try lia.
      exists 0%nat, (PyFloat.scaled 0 m (Zneg p)), " B/s".
      split; [unfold _format_bytes; rewrite E1; reflexivity|].
      left. split; [reflexivity|]. split; [reflexivity|].
      unfold PyFloat.scaled. change (10 ^ Z.of_nat 0) with 1.
      apply round_half_even_bounds; [apply Z.pow_pos_nonneg; lia|].
      assert (H43 : 2 ^ 43 <= 2 ^ Zpos p) by (apply pow2_ge; lia).
      change (2 ^ 43) with 8796093022208 in H43. lia.
    + subst e.
      exists 0%nat, (PyFloat.scaled 0 m (-42)), " B/s".
      split; [unfold _format_bytes; rewrite E1; reflexivity|].
      left. split; [reflexivity|]. split; [reflexivity|].
      unfold PyFloat.scaled. change (10 ^ Z.of_nat 0) with 1.
      change (2 ^ 42) with 4398046511104.
      apply round_half_even_bounds; lia.
  - destruct (not_below_1024 _ Hv eq_refl eq_refl E1)
      as (m' & e' & Hx & Hd & He).
    apply (f_equal (fun x => match x with
                             | S754_finite _ a b => (a, b)
                             | _ => (m, e)
                             end)) in Hx.
    apply pair_inj in Hx. destruct Hx as [<- <-].
    pose proof (normal_mantissa m Hd) as Hn.
    change (2 ^ 52) with 4503599627370496 in Hn.
    destruct (Z.ltb_spec e (-32)) as [Hkb|Hmb].
    + (* the KB/s row *)
      exists 1%nat, (PyFloat.scaled 1 m (e - 10)), " KB/s".
      split; [rewrite (format_bytes_kb m e Hd) by lia; reflexivity|].
      right. left. split; [reflexivity|]. split; [reflexivity|].
      unfold PyFloat.scaled. change (10 ^ Z.of_nat 1) with 10.
      destruct (e - 10) as [|q|q] eqn:Eq; try lia.
      apply round_half_even_bounds; [apply Z.pow_pos_nonneg; lia|].
      assert (H43 : 2 ^ 43 <= 2 ^ Zpos q) by (apply pow2_ge; lia).
      assert (H52 : 2 ^ Zpos q <= 2 ^ 52) by (apply pow2_ge; lia).
      change (2 ^ 43) with 8796093022208 in H43.
      change (2 ^ 52) with 4503599627370496 in H52. lia.
    + (* the MB/s row *)
      exists 2%nat, (PyFloat.scaled 2 m (e - 20)), " MB/s".
      split; [rewrite (format_bytes_mb m e Hd) by lia; reflexivity|].
      right. right. split; [reflexivity|]. split; [reflexivity|].
      unfold PyFloat.scaled. change (10 ^ Z.of_nat 2) with 100.
      destruct (e - 20) as [|q|q] eqn:Eq.
      * change (2 ^ 0) with 1. lia.
      * assert (Hq : 0 < 2 ^ Zpos q) by (apply Z.pow_pos_nonneg; lia). nia.
      * assert (Hq : 0 < 2 ^ Zpos q) by (apply Z.pow_pos_nonneg; lia).
        assert (H52 : 2 ^ Zpos q <= 2 ^ 52) by (apply pow2_ge; lia).
        change (2 ^ 52) with 4503599627370496 in H52.
        refine (proj1 (round_half_even_bounds _ _ 100 (100 * Zpos m) Hq _)).
        split; [lia | nia].
Qed.

Lemma displayed_figure_in_range_witness :
  exists (d : nat) (N : Z) (unit : string),
    _format_bytes PyFloat.f1048524_8 = Ok (PyFloat.render d N ++ unit) /\
    ((d = 0%nat /\ unit = " B/s" /\ 0 <= N <= 1024) \/
     (d = 1%nat /\ unit = " KB/s" /\ 10 <= N <= 10240) \/
     (d = 2%nat /\ unit = " MB/s" /\ 100 <= N)).
Proof.
  exact (displayed_figure_in_range 9006759450089882 (-33) eq_refl).
Defined.

(** ** The rounded percentages *)

Lemma scaled_nonneg (d : nat) (m : positive) (e : Z) :
  0 <= PyFloat.scaled d m e.
Proof.
  assert (H10 : 0 < 10 ^ Z.of_nat d) by (apply Z.pow_pos_nonneg; lia).
  unfold PyFloat.scaled. destruct e as [|p|p].
  - change (2 ^ 0) with 1. nia.
  - assert (Hp : 0 < 2 ^ Zpos p) by (apply Z.pow_pos_nonneg; lia). nia.
  - assert (Hp : 0 < 2 ^ Zpos p) by (apply Z.pow_pos_nonneg; lia).
    refine (proj1 (round_half_even_bounds _ _ 0 (Zpos m * 10 ^ Z.of_nat d) Hp _)).
    nia.
Qed.

(** X16.  [round(x, d)] of a finite reading is never a NaN and carries the
    sign bit of the reading (a small negative reading rounds to -0.0), and a
    zero reading is returned as it is: this is what the CPU and memory
    variables receive. *)
Theorem round_keeps_sign (d : nat) (x : PyFloat.float) :
  PyFloat.is_finite x = true ->
  PyFloat.signed (sign_bit x) (round_ndigits d x) /\
  (PyFloat.is_zero x = true -> round_ndigits d x = x).
Proof.
  intros Hf. destruct x as [s|s| |s m e]; try discriminate.
  - split; reflexivity.
  - split; [|discriminate].
    unfold round_ndigits, sign_bit.
    pose proof (scaled_nonneg d m e) as Hn.
    destruct (PyFloat.scaled d m e) as [|n|n]; [reflexivity| |lia].
    assert (H10 : 0 < 10 ^ Z.of_nat d) by (apply Z.pow_pos_nonneg; lia).
    pose proof (div_core_nonneg (Zpos n) 0 (10 ^ Z.of_nat d) 0
                  ltac:(lia) H10) as H.
    destruct (SFdiv_core_binary PyFloat.prec PyFloat.emax (Zpos n) 0
                (10 ^ Z.of_nat d) 0) as [[mz ez] lz].
    cbn [fst] in H. apply binary_round_aux_signed. exact H.
Qed.

(** -0.04 rounds to -0.0 at one decimal. *)
Lemma round_keeps_sign_witness :
  PyFloat.signed true
    (round_ndigits 1 (S754_finite true 5764607523034235 (-57))) /\
  round_ndigits 1 (S754_finite true 5764607523034235 (-57)) = S754_zero true.
Proof.
  split.
  - exact (proj1 (round_keeps_sign 1 (S754_finite true 5764607523034235 (-57))
                    eq_refl)).
  - vm_compute. reflexivity.
Defined.

(** ** The tick after a failed read *)

(** X17.  After a collection that failed on the CPU, memory, process or disk
    read, the next returning collection measures each counter against the
    reading stored before the failure but divides by the time elapsed since
    the failed tick only: each rate is
    max(0, current - last stored) / (now - instant of the failed tick). *)
Theorem rates_after_failed_read
    (h1 h2 : Host) (st st1 st2 : App) (s : subsystem) (m2 : Metrics)
    (cd2 : psutil.sdiskio) (cn2 : psutil.snetio) (c : counter) :
  s <> Network ->
  PyFloat.truthy (time_time h1) = true ->
  disk_io_counters h2 = Some cd2 -> net_io_counters h2 = Some cn2 ->
  _collect_metrics h1 st = (Raise (HostError s), st1) ->
  _collect_metrics h2 st1 = (Ok m2, st2) ->
  PyFloat.int_truediv
    (byte_delta (reading c cd2 cn2) (previous c st))
    (PyFloat.sub (time_time h2) (time_time h1)) = Ok (rate c m2).
Proof.
  intros Hs Ht Hd2 Hn2 H1 H2.
  apply collect_raises in H1.
  destruct H1 as (_ & _ & _ & _ & Hn & Htime & Hd).
  assert (Hdisk : prev_disk st1 = prev_disk st).
  { destruct Hd as [(s0 & He & _ & Hd)|[[He _]|[He|[He _]]]];
      try discriminate; [exact Hd|].
    exfalso. apply Hs.
    exact (f_equal (fun e => match e with HostError x => x | _ => s end) He). }
  destruct (collect_returns h2 st1 st2 m2 H2)
    as (c2 & v2 & ps2 & cd2' & cn2' & _ & _ & _ & Hd2' & Hn2' & Hr & _).
  rewrite Hd2 in Hd2'. rewrite Hn2 in Hn2'.
  apply Some_inj in Hd2'. apply Some_inj in Hn2'. subst cd2' cn2'.
  specialize (Hr c).
  assert (Hprev : previous c st1 = previous c st)
    by (unfold previous; rewrite Hdisk, Hn; reflexivity).
  assert (Hel : elapsed (time_time h2) st1 =
                PyFloat.sub (time_time h2) (time_time h1)).
  { unfold elapsed. rewrite Htime, Ht. reflexivity. }
  rewrite Hprev, Hel in Hr. exact Hr.
Qed.

(** The CPU read fails at instant 101 while the read counter stands at 1500;
    at instant 102 it stands at 2024: the rate shown is (2024 - 1000) / 1.0,
    the bytes of two seconds over one. *)
Lemma rates_after_failed_read_witness :
  exists (st1 st2 : App) (m2 : Metrics),
    _collect_metrics (Sample.host_cpu_fails 101 1500 2000 3000 4000)
      (Sample.app []) = (Raise (HostError Cpu), st1) /\
    _collect_metrics
      (Sample.host 102 (Sample.secs 10) (Sample.secs 40) 2024 2000 3000 4000)
      st1 = (Ok m2, st2) /\
    PyFloat.int_truediv 1024 PyFloat.one = Ok (rate DiskRead m2).
Proof.
  destruct (_collect_metrics (Sample.host_cpu_fails 101 1500 2000 3000 4000)
              (Sample.app [])) as [r1 st1] eqn:E1.
  assert (Hr1 : r1 = Raise (HostError Cpu)).
  { vm_compute in E1. apply pair_inj in E1. destruct E1 as [<- _]. reflexivity. }
  subst r1.
  destruct (_collect_metrics
              (Sample.host 102 (Sample.secs 10) (Sample.secs 40) 2024 2000 3000 4000)
              st1) as [[m2|e] st2] eqn:E2.
  - exists st1, st2, m2. split; [reflexivity|]. split; [exact E2|].
    exact (rates_after_failed_read
             (Sample.host_cpu_fails 101 1500 2000 3000 4000)
             (Sample.host 102 (Sample.secs 10) (Sample.secs 40) 2024 2000 3000 4000)
             (Sample.app []) st1 st2 Cpu m2 _ _ DiskRead
             ltac:(discriminate) eq_refl eq_refl eq_refl E1 E2).
  - exfalso. vm_compute in E1. apply pair_inj in E1. destruct E1 as [_ <-].
    vm_compute in E2. discriminate E2.
Defined.
